(** * PDFGenerator: comprehensive diagnosis reports

    A shallow embedding of [src/@comprehensive/pdf-generator.js].

    - Strings are sequences of bytes (the UTF-8 encoding of the JavaScript
      text, which is also what a [Blob] stores).
    - Property values are the JavaScript values the templates can print:
      [undefined], numbers with an integral value (below 10^21 in
      magnitude, which JavaScript prints in full in decimal) and strings.
      A per-language object such as [disease.name] is a finite map from
      language codes to strings.
    - Methods are programs over a small set of host operations ([op]); an
      [Await] node is a suspension point of an [async] function.  Programs
      are run against a [World] holding the generator's [isGenerating] flag,
      the objects the caller passes by reference, the clock, the registry of
      object URLs and the windows of the host.
    - [downloadPDF], which only drives the DOM with an artifact it is
      given, is left out. *)

From stdpp Require Import gmap strings list.
From Stdlib Require Import String Ascii ZArith DecimalString Lia.

Open Scope string_scope.

(** ** JavaScript values and strings *)

Module JS.

(** The double-quote character, and a string between double quotes. *)
Definition dq : string := String (ascii_of_nat 34) EmptyString.
Definition q (s : string) : string := dq ++ s ++ dq.

Inductive value :=
| undefined
| number (n : Z)
| text (s : string).

(** [ToString], as applied by template literals. *)
Definition ToString (v : value) : string :=
  match v with
  | undefined => "undefined"
  | number n => NilZero.string_of_int (Z.to_int n)
  | text s => s
  end.

(** [ToBoolean]: [undefined], [0] and the empty string are falsy. *)
Definition ToBoolean (v : value) : bool :=
  match v with
  | undefined => false
  | number n => negb (n =? 0)%Z
  | text s => negb (s =? EmptyString)
  end.

(** [a || b]. *)
Definition logicalOr (a b : value) : value := if ToBoolean a then a else b.

(** [m[k]] on an object used as a map from strings to strings. *)
Definition index (m : gmap string string) (k : string) : value :=
  match m !! k with
  | Some s => text s
  | None => undefined
  end.

(** [s.split(sep)] for a one-character separator. *)
Fixpoint split (sep : ascii) (s : string) : list string :=
  match s with
  | EmptyString => [EmptyString]
  | String c s' =>
      if Ascii.eqb c sep then EmptyString :: split sep s'
      else match split sep s' with
           | [] => [String c EmptyString]
           | h :: t => String c h :: t
           end
  end.

(** [l[0]]. *)
Definition first (l : list string) : value :=
  match l with
  | [] => undefined
  | s :: _ => text s
  end.

(** [s.startsWith(pre)], [s.includes(sub)], [s.endsWith(suf)] and the
    number of positions of [s] at which [sub] occurs. *)
Fixpoint startsWith (pre s : string) : bool :=
  match pre, s with
  | EmptyString, _ => true
  | String _ _, EmptyString => false
  | String a pre', String b s' => Ascii.eqb a b && startsWith pre' s'
  end.

(** Whether the character [c] occurs in [s]. *)
Fixpoint hasChar (c : ascii) (s : string) : bool :=
  match s with
  | EmptyString => false
  | String x s' => Ascii.eqb x c || hasChar c s'
  end.

Fixpoint includes (sub s : string) : bool :=
  startsWith sub s ||
  match s with
  | EmptyString => false
  | String _ s' => includes sub s'
  end.

Fixpoint endsWith (suf s : string) : bool :=
  (suf =? s) ||
  match s with
  | EmptyString => false
  | String _ s' => endsWith suf s'
  end.

Fixpoint occurrences (sub s : string) : nat :=
  match s with
  | EmptyString => 0
  | String _ s' => (if startsWith sub s then 1 else 0) + occurrences sub s'
  end.

(** *** Dates

    A [Date] is kept as its broken-down UTC time, which is what
    [toISOString] prints. *)
Record Date := {
  year : Z;
  month : nat;
  day : nat;
  hours : nat;
  minutes : nat;
  seconds : nat;
  milliseconds : nat
}.

Definition digit (n : nat) : ascii := ascii_of_nat (48 + n mod 10).

(** The last [width] decimal digits of [n], zero-padded. *)
Fixpoint pad (width n : nat) : string :=
  match width with
  | 0 => EmptyString
  | S width' => pad width' (n / 10) ++ String (digit n) EmptyString
  end.

(** [YYYY] for the years 0 to 9999, otherwise the expanded form with a
    sign and six digits. *)
Definition isoYear (y : Z) : string :=
  if ((0 <=? y) && (y <=? 9999))%Z then pad 4 (Z.to_nat y)
  else (if (y <? 0)%Z then "-" else "+") ++ pad 6 (Z.to_nat (Z.abs y)).

Definition isoDate (d : Date) : string :=
  isoYear (year d) ++ "-" ++ pad 2 (month d) ++ "-" ++ pad 2 (day d).

Definition toISOString (d : Date) : string :=
  isoDate d ++ "T" ++ pad 2 (hours d) ++ ":" ++ pad 2 (minutes d) ++ ":" ++
  pad 2 (seconds d) ++ "." ++ pad 3 (milliseconds d) ++ "Z".

Definition is_digit (c : ascii) : bool :=
  ((48 <=? nat_of_ascii c) && (nat_of_ascii c <=? 57))%nat.

(** The shape [YYYY-MM-DD]. *)
Definition is_YYYY_MM_DD (s : string) : bool :=
  match list_ascii_of_string s with
  | [y1; y2; y3; y4; h1; m1; m2; h2; d1; d2] =>
      forallb is_digit [y1; y2; y3; y4; m1; m2; d1; d2] &&
      Ascii.eqb h1 "-" && Ascii.eqb h2 "-"
  | _ => false
  end.

End JS.
Import JS.

(** ** The analysis result

    Every sub-object and every per-language object may be missing
    ([None] is [undefined]); reading a property of a missing object throws. *)

Module Breed.
Record t := { name : option (gmap string string); confidence : value }.
End Breed.

Module Weight.
Record t := {
  estimated : value;
  method : option (gmap string string);
  errorMargin : value
}.
End Weight.

Module Disease.
Record t := { name : option (gmap string string); probability : value }.
End Disease.

Module Treatment.
Record t := {
  medication : option (gmap string string);
  dosage : option (gmap string string);
  duration : option (gmap string string);
  warnings : option (gmap string string)
}.
End Treatment.

Record AnalysisResult := {
  overallConfidence : value;
  breed : option Breed.t;
  weight : option Weight.t;
  disease : option Disease.t;
  treatment : option Treatment.t
}.

(** ** Host objects *)

Record Blob := { blobParts : list string; type : string }.

(** What [generateReport] resolves to. [url] is the handle returned by
    [URL.createObjectURL]. *)
Record Artifact := { blob : Blob; url : nat; filename : string }.

(** The handler [printHTMLReport] installs on a window. *)
Inductive handler := CallPrint.

Record Window := {
  document : string;
  documentClosed : bool;
  onload : option handler;
  printDialogs : nat
}.

Inductive exn :=
| Error (message : string)
| TypeError (reading : string).

(** ** Programs *)

(** References to analysis-result objects. *)
Definition ref := nat.

Inductive op : Type -> Type :=
| GetIsGenerating : op bool
| SetIsGenerating (b : bool) : op unit
| NewDate : op Date
| Load (r : ref) : op (option AnalysisResult)
| Store (r : ref) (v : AnalysisResult) : op unit
| CreateObjectURL (b : Blob) : op nat
| WindowOpen : op (option nat)
| DocumentWrite (w : nat) (html : string) : op unit
| DocumentClose (w : nat) : op unit
| SetOnload (w : nat) (h : handler) : op unit.

Inductive prog (A : Type) : Type :=
| Ret (a : A)
| Throw (e : exn)
| Await (ms : nat) (k : prog A)
| Do {B : Type} (o : op B) (k : B -> prog A).

Arguments Ret {A} a.
Arguments Throw {A} e.
Arguments Await {A} ms k.
Arguments Do {A B} o k.

Fixpoint bind {A B} (p : prog A) (f : A -> prog B) : prog B :=
  match p with
  | Ret a => f a
  | Throw e => Throw e
  | Await ms k => Await ms (bind k f)
  | Do o k => Do o (fun b => bind (k b) f)
  end.

Declare Scope prog_scope.
Delimit Scope prog_scope with prog.
Bind Scope prog_scope with prog.
Notation "x <- p ;; k" := (bind p (fun x => k))
  (at level 100, p at next level, k at level 200, right associativity) : prog_scope.
Notation "p ;; k" := (bind p (fun _ => k))
  (at level 100, k at level 200, right associativity) : prog_scope.
Open Scope prog_scope.

Definition trigger {B} (o : op B) : prog B := Do o Ret.

(** [try { body } finally { fin }]. *)
Fixpoint try_finally {A} (body : prog A) (fin : prog unit) : prog A :=
  match body with
  | Ret a => fin ;; Ret a
  | Throw e => fin ;; Throw e
  | Await ms k => Await ms (try_finally k fin)
  | Do o k => Do o (fun b => try_finally (k b) fin)
  end.

(** Reading property [key] of [o]: a [TypeError] when [o] is undefined. *)
Definition of_object {A} (o : option A) (key : string) : prog A :=
  match o with
  | Some a => Ret a
  | None => Throw (TypeError key)
  end.

(** ** The world programs run in *)

Record World := {
  isGenerating : bool;
  heap : gmap ref AnalysisResult;
  clock : Date;
  objectURLs : list Blob;
  popupsBlocked : bool;
  windows : list Window
}.

Definition set_isGenerating (b : bool) (w : World) : World :=
  {| isGenerating := b; heap := heap w; clock := clock w;
     objectURLs := objectURLs w; popupsBlocked := popupsBlocked w;
     windows := windows w |}.

Definition set_heap (h : gmap ref AnalysisResult) (w : World) : World :=
  {| isGenerating := isGenerating w; heap := h; clock := clock w;
     objectURLs := objectURLs w; popupsBlocked := popupsBlocked w;
     windows := windows w |}.

Definition set_clock (d : Date) (w : World) : World :=
  {| isGenerating := isGenerating w; heap := heap w; clock := d;
     objectURLs := objectURLs w; popupsBlocked := popupsBlocked w;
     windows := windows w |}.

Definition set_objectURLs (l : list Blob) (w : World) : World :=
  {| isGenerating := isGenerating w; heap := heap w; clock := clock w;
     objectURLs := l; popupsBlocked := popupsBlocked w;
     windows := windows w |}.

Definition set_windows (l : list Window) (w : World) : World :=
  {| isGenerating := isGenerating w; heap := heap w; clock := clock w;
     objectURLs := objectURLs w; popupsBlocked := popupsBlocked w;
     windows := l |}.

Definition blankWindow : Window :=
  {| document := EmptyString; documentClosed := false; onload := None;
     printDialogs := 0 |}.

Definition write (html : string) (win : Window) : Window :=
  {| document := document win ++ html; documentClosed := documentClosed win;
     onload := onload win; printDialogs := printDialogs win |}.

Definition close (win : Window) : Window :=
  {| document := document win; documentClosed := true;
     onload := onload win; printDialogs := printDialogs win |}.

Definition install (h : handler) (win : Window) : Window :=
  {| document := document win; documentClosed := documentClosed win;
     onload := Some h; printDialogs := printDialogs win |}.

(** The load event of a window runs its handler, which opens the print
    dialog. *)
Definition fireLoad (win : Window) : Window :=
  match onload win with
  | Some CallPrint =>
      {| document := document win; documentClosed := documentClosed win;
         onload := onload win; printDialogs := S (printDialogs win) |}
  | None => win
  end.

(** One host operation.  [window.open] returns [null] when the host blocks
    popups, and a fresh window otherwise; [URL.createObjectURL] registers
    the blob and returns its handle. *)
Definition perform {B} (o : op B) (w : World) : B * World :=
  match o in op B return B * World with
  | GetIsGenerating => (isGenerating w, w)
  | SetIsGenerating b => (tt, set_isGenerating b w)
  | NewDate => (clock w, w)
  | Load r => (heap w !! r, w)
  | Store r v => (tt, set_heap (<[r := v]> (heap w)) w)
  | CreateObjectURL b =>
      (List.length (objectURLs w), set_objectURLs (objectURLs w ++ [b])%list w)
  | WindowOpen =>
      if popupsBlocked w then (None, w)
      else (Some (List.length (windows w)),
            set_windows (windows w ++ [blankWindow])%list w)
  | DocumentWrite i html => (tt, set_windows (alter (write html) i (windows w)) w)
  | DocumentClose i => (tt, set_windows (alter close i (windows w)) w)
  | SetOnload i h => (tt, set_windows (alter (install h) i (windows w)) w)
  end.

(** How a call stands when control returns to the host. *)
Inductive status (A : Type) :=
| Returned (a : A)
| Thrown (e : exn)
| Suspended (ms : nat) (k : prog A).

Arguments Returned {A} a.
Arguments Thrown {A} e.
Arguments Suspended {A} ms k.

(** A call that has returned or thrown. *)
Definition settled {A} (s : status A) : bool :=
  match s with
  | Suspended _ _ => false
  | _ => true
  end.

(** Run a program up to its next suspension point. *)
Fixpoint run {A} (p : prog A) (w : World) : status A * World :=
  match p with
  | Ret a => (Returned a, w)
  | Throw e => (Thrown e, w)
  | Await ms k => (Suspended ms k, w)
  | Do o k => let (b, w') := perform o w in run (k b) w'
  end.

(** Run a program to its end.  While the program is suspended the host does
    what [env] says: its next entry transforms the world before the program
    resumes. *)
Fixpoint exec {A} (p : prog A) (env : list (World -> World)) (w : World)
  : status A * World :=
  match p with
  | Ret a => (Returned a, w)
  | Throw e => (Thrown e, w)
  | Await ms k =>
      match env with
      | [] => exec k [] w
      | f :: env' => exec k env' (f w)
      end
  | Do o k => let (b, w') := perform o w in exec (k b) env w'
  end.

(** ** The generator *)

Section PDFGenerator.

(** [d.toLocaleDateString(locale)]: the host's rendering of the local
    calendar date of [d] in the conventions of [locale]. *)
Variable toLocaleDateString : Date -> string -> string.

Definition constructor : prog unit :=
  trigger (SetIsGenerating false).

Definition generatePDFContent (analysisResults : ref) (language : string)
  : string :=
  let content :=
      "
            %PDF-1.4
            1 0 obj
            << /Type /Catalog /Pages 2 0 R >>
            endobj
            2 0 obj
            << /Type /Pages /Kids [3 0 R] /Count 1 >>
            endobj
            3 0 obj
            << /Type /Page /Parent 2 0 R /MediaBox [0 0 612 792] /Contents 4 0 R >>
            endobj
            4 0 obj
            << /Length 100 >>
            stream
            BT
            /F1 12 Tf
            50 750 Td
            (" ++
      (if language =? "ar" then "تقرير التشخيص الشامل" else "Comprehensive Diagnosis Report") ++
      ") Tj
            ET
            endstream
            endobj
            xref
            0 5
            0000000000 65535 f 
            0000000009 00000 n 
            0000000058 00000 n 
            0000000115 00000 n 
            0000000234 00000 n 
            trailer
            << /Size 5 /Root 1 0 R >>
            startxref
            295
            %%EOF
        " in
  content.

Definition generateFilename (analysisResults : ref) (language : string)
  : prog string :=
  now <- trigger NewDate ;;
  let timestamp := first (split "T" (toISOString now)) in
  obj <- trigger (Load analysisResults) ;;
  obj <- of_object obj "disease" ;;
  diseaseObj <- of_object (disease obj) "name" ;;
  name <- of_object (Disease.name diseaseObj) language ;;
  let diseaseName := logicalOr (index name language) (text "unknown") in
  if language =? "ar" then
    Ret (
      "تقرير-التشخيص-" ++
      ToString diseaseName ++
      "-" ++
      ToString timestamp ++
      ".pdf")
  else
    Ret (
      "diagnosis-report-" ++
      ToString diseaseName ++
      "-" ++
      ToString timestamp ++
      ".pdf").

Definition simulatePDFGeneration (analysisResults : ref) (language : string)
  : prog Artifact :=
  Await 2000 (
    let pdfContent := generatePDFContent analysisResults language in
    let blob := {| blobParts := [pdfContent]; type := "application/pdf" |} in
    url <- trigger (CreateObjectURL blob) ;;
    filename <- generateFilename analysisResults language ;;
    Ret {| blob := blob; url := url; filename := filename |}).

(** The error of a call that finds another generation pending. *)
Definition alreadyInProgress : exn :=
  Error "PDF generation already in progress".

Definition generateReport (analysisResults : ref) (language : option string)
  : prog Artifact :=
  let language := default "ar" language in
  generating <- trigger GetIsGenerating ;;
  if generating then Throw alreadyInProgress
  else
    trigger (SetIsGenerating true) ;;
    try_finally
      (simulatePDFGeneration analysisResults language)
      (trigger (SetIsGenerating false)).

Record HTMLSection := { title : string; content : string }.

(** The four entries of [sections], in the order of the array literal. *)
Definition sectionList (breedObj : Breed.t) (breedName : gmap string string)
    (weightObj : Weight.t) (method : gmap string string)
    (diseaseObj : Disease.t) (diseaseName : gmap string string)
    (medication dosage duration warnings : gmap string string)
    (language : string) : list HTMLSection :=
  [ {| title := if language =? "ar" then "نوع الدجاجة" else "Chicken Breed";
       content :=
      "
                    <p><strong>" ++
      ToString (index breedName language) ++
      "</strong></p>
                    <p>" ++
      (if language =? "ar" then "نسبة الثقة:" else "Confidence:") ++
      " " ++
      ToString (Breed.confidence breedObj) ++
      "%</p>
                " |};
    {| title := if language =? "ar" then "الوزن التقديري" else "Estimated Weight";
       content :=
      "
                    <p><strong>" ++
      ToString (Weight.estimated weightObj) ++
      "</strong></p>
                    <p>" ++
      ToString (index method language) ++
      "</p>
                    <p>" ++
      (if language =? "ar" then "هامش الخطأ:" else "Error Margin:") ++
      " " ++
      ToString (Weight.errorMargin weightObj) ++
      "</p>
                " |};
    {| title := if language =? "ar" then "المرض المشتبه به" else "Suspected Disease";
       content :=
      "
                    <p><strong>" ++
      ToString (index diseaseName language) ++
      "</strong></p>
                    <p>" ++
      (if language =? "ar" then "نسبة الاحتمال:" else "Probability:") ++
      " " ++
      ToString (Disease.probability diseaseObj) ++
      "%</p>
                " |};
    {| title := if language =? "ar" then "طريقة العلاج" else "Treatment";
       content :=
      "
                    <p><strong>" ++
      (if language =? "ar" then "الدواء:" else "Medication:") ++
      "</strong> " ++
      ToString (index medication language) ++
      "</p>
                    <p><strong>" ++
      (if language =? "ar" then "الجرعة:" else "Dosage:") ++
      "</strong> " ++
      ToString (index dosage language) ++
      "</p>
                    <p><strong>" ++
      (if language =? "ar" then "المدة:" else "Duration:") ++
      "</strong> " ++
      ToString (index duration language) ++
      "</p>
                    <p><strong>" ++
      (if language =? "ar" then "تحذيرات:" else "Warnings:") ++
      "</strong> " ++
      ToString (index warnings language) ++
      "</p>
                " |} ].

Definition sectionBlock (section : HTMLSection) : string :=
      "
            <div class=" ++
      q "section" ++
      ">
                <div class=" ++
      q "section-title" ++
      ">" ++
      title section ++
      "</div>
                " ++
      content section ++
      "
            </div>
        ".

Definition generateHTMLSections (analysisResults : ref) (language : string)
  : prog string :=
  obj <- trigger (Load analysisResults) ;;
  obj <- of_object obj "breed" ;;
  breedObj <- of_object (breed obj) "name" ;;
  breedName <- of_object (Breed.name breedObj) language ;;
  weightObj <- of_object (weight obj) "estimated" ;;
  method <- of_object (Weight.method weightObj) language ;;
  diseaseObj <- of_object (disease obj) "name" ;;
  diseaseName <- of_object (Disease.name diseaseObj) language ;;
  treatmentObj <- of_object (treatment obj) "medication" ;;
  medication <- of_object (Treatment.medication treatmentObj) language ;;
  dosage <- of_object (Treatment.dosage treatmentObj) language ;;
  duration <- of_object (Treatment.duration treatmentObj) language ;;
  warnings <- of_object (Treatment.warnings treatmentObj) language ;;
  let sections :=
    sectionList breedObj breedName weightObj method diseaseObj diseaseName
      medication dosage duration warnings language in
  Ret (String.concat EmptyString (map sectionBlock sections)).

(** The template literal [generatePrintableHTML] returns: [date] stands for
    the printed date, [confidence] for [analysisResults.overallConfidence]
    and [sections] for the result of [generateHTMLSections]. *)
Definition printableTemplate
    (language direction textAlign date confidence sections : string) : string :=
      "
            <!DOCTYPE html>
            <html dir=" ++
      q direction ++
      " lang=" ++
      q language ++
      ">
            <head>
                <meta charset=" ++
      q "UTF-8" ++
      ">
                <title>" ++
      (if language =? "ar" then "تقرير التشخيص الشامل" else "Comprehensive Diagnosis Report") ++
      "</title>
                <style>
                    body {
                        font-family: 'Tajawal', Arial, sans-serif;
                        direction: " ++
      direction ++
      ";
                        text-align: " ++
      textAlign ++
      ";
                        margin: 20px;
                        line-height: 1.6;
                    }
                    .header {
                        text-align: center;
                        border-bottom: 2px solid #333;
                        padding-bottom: 20px;
                        margin-bottom: 30px;
                    }
                    .section {
                        margin-bottom: 25px;
                        padding: 15px;
                        border: 1px solid #ddd;
                        border-radius: 8px;
                    }
                    .section-title {
                        font-weight: bold;
                        color: #4361ee;
                        margin-bottom: 10px;
                        font-size: 1.2em;
                    }
                    .confidence {
                        text-align: center;
                        background: #f8f9fa;
                        padding: 15px;
                        border-radius: 8px;
                        margin: 20px 0;
                    }
                    .warning {
                        background: #fff3cd;
                        border: 1px solid #ffeaa7;
                        padding: 15px;
                        border-radius: 8px;
                        margin: 20px 0;
                    }
                    @media print {
                        body { margin: 0; }
                        .no-print { display: none; }
                    }
                </style>
            </head>
            <body>
                <div class=" ++
      q "header" ++
      ">
                    <h1>" ++
      (if language =? "ar" then "تقرير التشخيص الشامل" else "Comprehensive Diagnosis Report") ++
      "</h1>
                    <p>" ++
      (if language =? "ar" then "نظام تشخيص صحة الدجاج بالذكاء الاصطناعي" else "AI-Powered Chicken Health Diagnosis System") ++
      "</p>
                    <p>" ++
      date ++
      "</p>
                </div>

                <div class=" ++
      q "confidence" ++
      ">
                    <h3>" ++
      (if language =? "ar" then "مؤشر الثقة العام" else "Overall Confidence Indicator") ++
      "</h3>
                    <h2>" ++
      confidence ++
      "%</h2>
                </div>

                <div class=" ++
      q "warning" ++
      ">
                    <strong>" ++
      (if language =? "ar" then "ملاحظة هامة:" else "Important Note:") ++
      "</strong>
                    " ++
      (if language =? "ar" then "هذه النتائج استرشادية وتحتاج لتأكيد من طبيب بيطري متخصص. لا تستبدل التشخيص الطبي المهني." else "These results are indicative and require confirmation from a specialized veterinarian. They do not replace professional medical diagnosis.") ++
      "
                </div>

                " ++
      sections ++
      "
            </body>
            </html>
        ".

Definition generatePrintableHTML (analysisResults : ref) (language : string)
  : prog string :=
  let direction := if language =? "ar" then "rtl" else "ltr" in
  let textAlign := if language =? "ar" then "right" else "left" in
  now <- trigger NewDate ;;
  let date :=
    toLocaleDateString now (if language =? "ar" then "ar-SA" else "en-US") in
  obj <- trigger (Load analysisResults) ;;
  obj <- of_object obj "overallConfidence" ;;
  sections <- generateHTMLSections analysisResults language ;;
  Ret (printableTemplate language direction textAlign date
         (ToString (overallConfidence obj)) sections).

Definition printHTMLReport (analysisResults : ref) (language : string)
  : prog unit :=
  printableWindow <- trigger WindowOpen ;;
  htmlContent <- generatePrintableHTML analysisResults language ;;
  printableWindow <- of_object printableWindow "document" ;;
  trigger (DocumentWrite printableWindow htmlContent) ;;
  trigger (DocumentClose printableWindow) ;;
  trigger (SetOnload printableWindow CallPrint).

(** ** Complete analysis results *)

(** The objects the templates read from an analysis result, when all of
    them are present. *)
Record Parts := {
  breedObj : Breed.t;
  breedName : gmap string string;
  weightObj : Weight.t;
  method : gmap string string;
  diseaseObj : Disease.t;
  diseaseName : gmap string string;
  treatmentObj : Treatment.t;
  medication : gmap string string;
  dosage : gmap string string;
  duration : gmap string string;
  warnings : gmap string string
}.

Definition parts (obj : AnalysisResult) : option Parts :=
  b ← breed obj; bn ← Breed.name b;
  wt ← weight obj; m ← Weight.method wt;
  d ← disease obj; dn ← Disease.name d;
  t ← treatment obj;
  med ← Treatment.medication t; dos ← Treatment.dosage t;
  dur ← Treatment.duration t; war ← Treatment.warnings t;
  Some {| breedObj := b; breedName := bn; weightObj := wt; method := m;
          diseaseObj := d; diseaseName := dn; treatmentObj := t;
          medication := med; dosage := dos; duration := dur; warnings := war |}.

(** The sections of a complete analysis result. *)
Definition sectionsOf (p : Parts) (language : string) : list HTMLSection :=
  sectionList (breedObj p) (breedName p) (weightObj p) (method p)
    (diseaseObj p) (diseaseName p)
    (medication p) (dosage p) (duration p) (warnings p) language.

(** The field values the sections print, in the order they print them, and
    with the overall confidence all the field values of the document. *)
Definition sectionValues (p : Parts) (language : string) : list string :=
  [ ToString (index (breedName p) language);
    ToString (Breed.confidence (breedObj p));
    ToString (Weight.estimated (weightObj p));
    ToString (index (method p) language);
    ToString (Weight.errorMargin (weightObj p));
    ToString (index (diseaseName p) language);
    ToString (Disease.probability (diseaseObj p));
    ToString (index (medication p) language);
    ToString (index (dosage p) language);
    ToString (index (duration p) language);
    ToString (index (warnings p) language) ].

Definition printed (obj : AnalysisResult) (p : Parts) (language : string)
  : list string :=
  ToString (overallConfidence obj) :: sectionValues p language.

(** The opening tag of a section block. *)
Definition sectionOpen : string := "<div class=" ++ q "section" ++ ">".

(** ** Templates as trees

    A template literal is a tree of literal text and holes; [textOf] is the
    string it denotes and [flat] its pieces from left to right, adjacent
    literals merged. *)

Inductive tpl :=
| Lit (s : string)
| Hole (s : string)
| Cat (a b : tpl).

Fixpoint textOf (t : tpl) : string :=
  match t with
  | Lit s => s
  | Hole s => s
  | Cat a b => textOf a ++ textOf b
  end.

Inductive piece :=
| PLit (s : string)
| PHole (s : string).

Definition glue (ps : list piece) : string :=
  fold_right (fun p acc => match p with PLit s | PHole s => s ++ acc end)
             EmptyString ps.

Definition consLit (s : string) (ps : list piece) : list piece :=
  match ps with
  | PLit s' :: ps' => PLit (s ++ s') :: ps'
  | _ => PLit s :: ps
  end.

Fixpoint flat (t : tpl) (acc : list piece) : list piece :=
  match t with
  | Lit s => consLit s acc
  | Hole s => PHole s :: acc
  | Cat a b => flat a (flat b acc)
  end.

(** [a] ends with a non-empty proper prefix of [sub]: an occurrence of
    [sub] could begin in [a] and end in what follows it. *)
Fixpoint overhang (sub a : string) : bool :=
  match a with
  | EmptyString => false
  | String _ a' =>
      (startsWith a sub && negb (startsWith sub a)) || overhang sub a'
  end.

Definition tail (s : string) : string :=
  match s with
  | EmptyString => EmptyString
  | String _ s' => s'
  end.

(** [b] is empty or begins with a character that [sub] has only, if at
    all, as its first one: no occurrence of [sub] that began earlier can
    continue into [b]. *)
Definition clearHead (sub b : string) : bool :=
  match b with
  | EmptyString => true
  | String c _ => negb (hasChar c (tail sub))
  end.

(** The pieces can be counted one by one: no literal ends in the middle of
    an occurrence and every hole is followed by a clear head. *)
Fixpoint separable (sub : string) (ps : list piece) : bool :=
  match ps with
  | [] => true
  | PLit s :: ps' => negb (overhang sub s) && separable sub ps'
  | PHole _ :: ps' =>
      match ps' with
      | [] => true
      | PLit s :: _ => clearHead sub s && negb (s =? EmptyString)
      | PHole _ :: _ => false
      end && separable sub ps'
  end.

Fixpoint literalCount (sub : string) (ps : list piece) : nat :=
  match ps with
  | [] => 0
  | PLit s :: ps' => occurrences sub s + literalCount sub ps'
  | PHole _ :: ps' => literalCount sub ps'
  end.

Fixpoint holes (ps : list piece) : list string :=
  match ps with
  | [] => []
  | PLit _ :: ps' => holes ps'
  | PHole s :: ps' => s :: holes ps'
  end.

(** ** Programs that do not write to the objects of the caller *)

Definition writesHeap {B} (o : op B) : bool :=
  match o with
  | Store _ _ => true
  | _ => false
  end.

Fixpoint readOnly {A} (p : prog A) : Prop :=
  match p with
  | Ret _ => True
  | Throw _ => True
  | Await _ k => readOnly k
  | Do o k => writesHeap o = false /\ forall b, readOnly (k b)
  end.

(** A host that leaves the objects of the caller alone while a call is
    pending. *)
Definition keepsHeap (f : World -> World) : Prop :=
  forall w, heap (f w) = heap w.

(** ** The generator over time *)

(** The world together with the call of [generateReport] that is waiting
    for its timer, if there is one. *)
Record Session := { world : World; pending : option (prog Artifact) }.

Inductive event :=
| Calls (analysisResults : ref) (language : option string)
| TimerFires
| HostActs (f : World -> World).

(** What an event does to a session, and the outcome it settles, if any. *)
Definition react (e : event) (s : Session)
  : option (status Artifact) * Session :=
  match e with
  | Calls analysisResults language =>
      match run (generateReport analysisResults language) (world s) with
      | (Suspended _ k, w) => (None, {| world := w; pending := Some k |})
      | (o, w) => (Some o, {| world := w; pending := pending s |})
      end
  | TimerFires =>
      match pending s with
      | Some k =>
          match run k (world s) with
          | (Suspended _ k', w) => (None, {| world := w; pending := Some k' |})
          | (o, w) => (Some o, {| world := w; pending := None |})
          end
      | None => (None, s)
      end
  | HostActs f => (None, {| world := f (world s); pending := pending s |})
  end.

(** The host does not touch the flag of the generator. *)
Definition keepsFlag (e : event) : Prop :=
  match e with
  | HostActs f => forall w, isGenerating (f w) = isGenerating w
  | _ => True
  end.

(** The flag is set exactly while a call is pending, and a pending call,
    once resumed, runs to its end and clears the flag. *)
Definition consistent (s : Session) : Prop :=
  match pending s with
  | Some k =>
      isGenerating (world s) = true /\
      forall w, settled (fst (run k w)) = true /\
                isGenerating (snd (run k w)) = false
  | None => isGenerating (world s) = false
  end.

(** A session that starts with a new generator. *)
Definition fresh (w : World) : Session :=
  {| world := snd (run constructor w); pending := None |}.

Definition play (es : list event) (s : Session) : Session :=
  fold_left (fun s e => snd (react e s)) es s.

(** The world in which a call accepted in [w] resumes: the host has acted
    as the first entry of [env] says, if there is one. *)
Definition atResume (env : list (World -> World)) (w : World) : World :=
  match env with
  | [] => set_isGenerating true w
  | f :: _ => f (set_isGenerating true w)
  end.

(** ** Downloading

    [downloadPDF] drives the page: the elements it creates, the children of
    [document.body], the downloads the host has started, the timeouts that
    are pending and the object URLs that have been revoked. *)

Record Anchor := { href : option nat; download : option string }.

Definition newAnchor : Anchor := {| href := None; download := None |}.

Inductive callback := RevokeObjectURL (handle : nat).

(** A download the host has started: the URL it reads, the name it
    suggests and what the URL gave, nothing if it had been revoked. *)
Record Download := {
  source : nat;
  suggestedName : option string;
  received : option Blob
}.

Record Page := {
  host : World;
  nodes : list Anchor;
  body : list nat;
  downloads : list Download;
  timeouts : list (nat * callback);
  revoked : list nat
}.

Definition set_nodes (l : list Anchor) (p : Page) : Page :=
  {| host := host p; nodes := l; body := body p; downloads := downloads p;
     timeouts := timeouts p; revoked := revoked p |}.

Definition set_body (l : list nat) (p : Page) : Page :=
  {| host := host p; nodes := nodes p; body := l; downloads := downloads p;
     timeouts := timeouts p; revoked := revoked p |}.

Definition set_downloads (l : list Download) (p : Page) : Page :=
  {| host := host p; nodes := nodes p; body := body p; downloads := l;
     timeouts := timeouts p; revoked := revoked p |}.

Definition set_timeouts (l : list (nat * callback)) (p : Page) : Page :=
  {| host := host p; nodes := nodes p; body := body p; downloads := downloads p;
     timeouts := l; revoked := revoked p |}.

Definition set_revoked (l : list nat) (p : Page) : Page :=
  {| host := host p; nodes := nodes p; body := body p; downloads := downloads p;
     timeouts := timeouts p; revoked := l |}.

(** [document.createElement('a')]: a new element, not yet in the tree. *)
Definition createElement (p : Page) : nat * Page :=
  (List.length (nodes p), set_nodes (nodes p ++ [newAnchor])%list p).

(** [link.href = u] and [link.download = name]. *)
Definition setHref (link u : nat) (p : Page) : Page :=
  set_nodes
    (alter (fun a => {| href := Some u; download := download a |}) link (nodes p)) p.

Definition setDownload (link : nat) (name : string) (p : Page) : Page :=
  set_nodes
    (alter (fun a => {| href := href a; download := Some name |}) link (nodes p)) p.

Fixpoint removeFirst (x : nat) (l : list nat) : list nat :=
  match l with
  | [] => []
  | y :: l' => if Nat.eqb x y then l' else y :: removeFirst x l'
  end.

(** [document.body.appendChild(node)]: the node becomes the last child,
    moved there if it was a child already. *)
Definition appendChild (node : nat) (p : Page) : Page :=
  set_body (removeFirst node (body p) ++ [node])%list p.

(** [document.body.removeChild(node)]: a [NotFoundError], here [None], when
    the node is not a child. *)
Definition removeChild (node : nat) (p : Page) : option Page :=
  if existsb (Nat.eqb node) (body p)
  then Some (set_body (removeFirst node (body p)) p)
  else None.

(** What an object URL gives: the blob registered under it, unless the URL
    has been revoked. *)
Definition resolve (p : Page) (u : nat) : option Blob :=
  if existsb (Nat.eqb u) (revoked p) then None else objectURLs (host p) !! u.

(** [link.click()]: an anchor with an [href] makes the host start a
    download of it, named by the [download] attribute. *)
Definition click (node : nat) (p : Page) : Page :=
  match nodes p !! node with
  | Some {| href := Some u; download := name |} =>
      set_downloads
        (downloads p ++ [ {| source := u; suggestedName := name;
                             received := resolve p u |} ])%list p
  | _ => p
  end.

Definition setTimeout (f : callback) (ms : nat) (p : Page) : Page :=
  set_timeouts (timeouts p ++ [(ms, f)])%list p.

(** The [i]-th pending timeout fires: its callback runs and it is gone. *)
Definition fireTimeout (i : nat) (p : Page) : Page :=
  match timeouts p !! i with
  | Some (_, RevokeObjectURL u) =>
      set_revoked (u :: revoked p) (set_timeouts (delete i (timeouts p)) p)
  | None => p
  end.

Definition downloadPDF (pdfData : Artifact) (p : Page) : option Page :=
  let (link, p) := createElement p in
  let p := setHref link (url pdfData) p in
  let p := setDownload link (filename pdfData) p in
  let p := appendChild link p in
  let p := click link p in
  p ← removeChild link p;
  Some (setTimeout (RevokeObjectURL (url pdfData)) 100 p).

(** Every child of the body is an element that has been created. *)
Definition wellFormed (p : Page) : Prop :=
  Forall (fun node => node < List.length (nodes p)) (body p).

(** The page of a world in which nothing has been created yet. *)
Definition pageOf (w : World) : Page :=
  {| host := w; nodes := []; body := []; downloads := []; timeouts := [];
     revoked := [] |}.

(** ** Sample data *)

Definition langMap (ar en : string) : gmap string string :=
  <["ar" := ar]> (<["en" := en]> ∅).

Definition sampleParts : Parts :=
  {| breedObj := {| Breed.name := Some (langMap "لجهورن" "Leghorn");
                    Breed.confidence := number 91 |};
     breedName := langMap "لجهورن" "Leghorn";
     weightObj := {| Weight.estimated := text "2.1 kg";
                     Weight.method := Some (langMap "تقدير بصري" "Visual estimate");
                     Weight.errorMargin := text "0.2 kg" |};
     method := langMap "تقدير بصري" "Visual estimate";
     diseaseObj := {| Disease.name := Some (langMap "مرض نيوكاسل" "Newcastle Disease");
                      Disease.probability := number 76 |};
     diseaseName := langMap "مرض نيوكاسل" "Newcastle Disease";
     treatmentObj :=
       {| Treatment.medication := Some (langMap "لقاح" "Vaccine");
          Treatment.dosage := Some (langMap "جرعة واحدة" "One dose");
          Treatment.duration := Some (langMap "سبعة أيام" "Seven days");
          Treatment.warnings := Some (langMap "عزل الطيور" "Isolate the birds") |};
     medication := langMap "لقاح" "Vaccine";
     dosage := langMap "جرعة واحدة" "One dose";
     duration := langMap "سبعة أيام" "Seven days";
     warnings := langMap "عزل الطيور" "Isolate the birds" |}.

Definition sampleResult : AnalysisResult :=
  {| overallConfidence := number 87;
     breed := Some (breedObj sampleParts);
     weight := Some (weightObj sampleParts);
     disease := Some (diseaseObj sampleParts);
     treatment := Some (treatmentObj sampleParts) |}.

(** A result whose English breed name is the opening tag of a section. *)
Definition taggedResult : AnalysisResult :=
  {| overallConfidence := number 87;
     breed := Some {| Breed.name := Some (langMap "لجهورن" sectionOpen);
                      Breed.confidence := number 91 |};
     weight := Some (weightObj sampleParts);
     disease := Some (diseaseObj sampleParts);
     treatment := Some (treatmentObj sampleParts) |}.

(** A result without a disease. *)
Definition incompleteResult : AnalysisResult :=
  {| overallConfidence := overallConfidence sampleResult;
     breed := breed sampleResult;
     weight := weight sampleResult;
     disease := None;
     treatment := treatment sampleResult |}.

Definition sampleDate : Date :=
  {| year := 2026; month := 3; day := 7;
     hours := 9; minutes := 5; seconds := 1; milliseconds := 42 |}.

Definition sampleWorld : World :=
  {| isGenerating := false;
     heap := <[0 := sampleResult]>
               (<[1 := taggedResult]> (<[2 := incompleteResult]> ∅));
     clock := sampleDate;
     objectURLs := [];
     popupsBlocked := false;
     windows := [] |}.

(** The same world with a generation pending, a blank window open and one
    object URL registered. *)
Definition busyWorld : World :=
  {| isGenerating := true;
     heap := heap sampleWorld;
     clock := sampleDate;
     objectURLs := [ {| blobParts := []; type := "text/plain" |} ];
     popupsBlocked := false;
     windows := [blankWindow] |}.

(** The same world with popups blocked. *)
Definition blockedWorld : World :=
  {| isGenerating := false;
     heap := heap sampleWorld;
     clock := sampleDate;
     objectURLs := [];
     popupsBlocked := true;
     windows := [] |}.

(** A host that prints dates as month, day and year in digits, whatever the
    locale. *)
Definition numericDate (d : Date) (locale : string) : string :=
  pad 2 (month d) ++ "/" ++ pad 2 (day d) ++ "/" ++ isoYear (year d).

(** The artifact of the object URL registered in [busyWorld]. *)
Definition sampleArtifact : Artifact :=
  {| blob := {| blobParts := []; type := "text/plain" |};
     url := 0;
     filename := "report.pdf" |}.

(** One second passes. *)
Definition tick (w : World) : World :=
  set_clock {| year := year (clock w); month := month (clock w);
               day := day (clock w); hours := hours (clock w);
               minutes := minutes (clock w);
               seconds := S (seconds (clock w));
               milliseconds := milliseconds (clock w) |} w.

(** ** Facts about strings *)

Lemma append_nil_l (s : string) : EmptyString ++ s = s.
Proof. reflexivity. Qed.

Lemma append_cons (c : ascii) (s t : string) :
  String c s ++ t = String c (s ++ t).
Proof. reflexivity. Qed.

Lemma append_nil_r (s : string) : s ++ EmptyString = s.
Proof.
  induction s as [|c s IH]; [reflexivity |].
  now rewrite append_cons, IH.
Qed.

Lemma append_assoc (a b c : string) : (a ++ b) ++ c = a ++ b ++ c.
Proof.
  induction a as [|x a IH]; [reflexivity |].
  now rewrite !append_cons, IH.
Qed.

Lemma startsWith_append (pre s : string) : startsWith pre (pre ++ s) = true.
Proof.
  induction pre as [|c pre IH]; [reflexivity |].
  rewrite append_cons. simpl. now rewrite Ascii.eqb_refl, IH.
Qed.

Lemma includes_here (sub s : string) :
  startsWith sub s = true -> includes sub s = true.
Proof. intros H. destruct s; simpl; rewrite H; reflexivity. Qed.

Lemma includes_append (sub a b : string) : includes sub (a ++ sub ++ b) = true.
Proof.
  induction a as [|c a IH].
  - rewrite append_nil_l. apply includes_here, startsWith_append.
  - rewrite append_cons. simpl. rewrite IH. apply orb_true_r.
Qed.

Lemma endsWith_append (suf a : string) : endsWith suf (a ++ suf) = true.
Proof.
  induction a as [|c a IH].
  - rewrite append_nil_l.
    destruct suf; cbn -[String.eqb]; rewrite String.eqb_refl; reflexivity.
  - rewrite append_cons. cbn -[String.eqb]. rewrite IH. apply orb_true_r.
Qed.


(** *** Counting occurrences *)

Lemma startsWith_append_l (sub a b : string) :
  startsWith a sub && negb (startsWith sub a) = false ->
  startsWith sub (a ++ b) = startsWith sub a.
Proof.
  revert a. induction sub as [|x sub IH]; intros a H; [reflexivity |].
  destruct a as [|y a]; [discriminate |].
  rewrite append_cons. cbn [startsWith] in *.
  rewrite (Ascii.eqb_sym y x) in H.
  destruct (Ascii.eqb x y); [| reflexivity].
  cbn [andb] in *. now apply IH.
Qed.

Lemma occurrences_append_l (sub a b : string) :
  overhang sub a = false ->
  occurrences sub (a ++ b) = occurrences sub a + occurrences sub b.
Proof.
  induction a as [|c a IH]; intros H; [reflexivity |].
  cbn [overhang] in H. apply orb_false_iff in H as [H1 H2].
  rewrite append_cons. cbn [occurrences].
  rewrite <- append_cons, (startsWith_append_l _ _ _ H1), (IH H2).
  now rewrite Nat.add_assoc.
Qed.

Lemma startsWith_append_r (sub a : string) (c : ascii) (b : string) :
  hasChar c sub = false ->
  startsWith sub (a ++ String c b) = startsWith sub a.
Proof.
  revert a. induction sub as [|x sub IH]; intros a H; [reflexivity |].
  cbn [hasChar] in H. apply orb_false_iff in H as [Hx Hsub].
  destruct a as [|y a].
  - rewrite append_nil_l. cbn [startsWith]. now rewrite Hx.
  - rewrite append_cons. cbn [startsWith]. now rewrite (IH _ Hsub).
Qed.

Lemma occurrences_append_r (sub a b : string) :
  clearHead sub b = true ->
  occurrences sub (a ++ b) = occurrences sub a + occurrences sub b.
Proof.
  destruct b as [|c b]; intros H.
  - rewrite append_nil_r. cbn [occurrences]. now rewrite Nat.add_0_r.
  - cbn [clearHead] in H. apply negb_true_iff in H.
    induction a as [|y a IH]; [reflexivity |].
    rewrite append_cons. cbn [occurrences]. rewrite IH, Nat.add_assoc.
    f_equal. f_equal.
    destruct sub as [|x sub]; [reflexivity |].
    cbn [startsWith tail] in *. now rewrite (startsWith_append_r _ _ _ _ H).
Qed.

Lemma glue_consLit (s : string) (ps : list piece) :
  glue (consLit s ps) = s ++ glue ps.
Proof.
  destruct ps as [|[s'|s'] ps]; try reflexivity.
  cbn [consLit glue fold_right]. apply append_assoc.
Qed.

Lemma glue_flat (t : tpl) (acc : list piece) :
  glue (flat t acc) = textOf t ++ glue acc.
Proof.
  revert acc. induction t as [s|s|a IHa b IHb]; intros acc; cbn [flat textOf].
  - apply glue_consLit.
  - reflexivity.
  - now rewrite IHa, IHb, append_assoc.
Qed.

Lemma occurrences_glue (sub : string) (ps : list piece) :
  separable sub ps = true ->
  occurrences sub (glue ps) =
  literalCount sub ps + list_sum (map (occurrences sub) (holes ps)).
Proof.
  induction ps as [|[s|s] ps IH]; intros H; [reflexivity | |].
  - cbn [separable] in H. apply andb_true_iff in H as [H1 H2].
    apply negb_true_iff in H1.
    change (glue (PLit s :: ps)) with (s ++ glue ps).
    rewrite (occurrences_append_l _ _ _ H1), (IH H2).
    cbn [literalCount holes]. now rewrite Nat.add_assoc.
  - cbn [separable] in H. apply andb_true_iff in H as [H1 H2].
    change (glue (PHole s :: ps)) with (s ++ glue ps).
    rewrite occurrences_append_r, (IH H2).
    + cbn [literalCount holes map].
      change (list_sum (?x :: ?l)) with (x + list_sum l). lia.
    + destruct ps as [|[s'|s'] ps]; [reflexivity | | discriminate].
      apply andb_true_iff in H1 as [H1 H3]. apply negb_true_iff in H3.
      change (glue (PLit s' :: ps)) with (s' ++ glue ps).
      destruct s' as [|c s']; [discriminate |].
      rewrite append_cons. exact H1.
Qed.

(** Counting the occurrences of [sub] in a template by its pieces. *)
Lemma occurrences_textOf (sub : string) (t : tpl) :
  separable sub (flat t []) = true ->
  occurrences sub (textOf t) =
  literalCount sub (flat t []) +
  list_sum (map (occurrences sub) (holes (flat t []))).
Proof.
  intros H. rewrite <- (occurrences_glue _ _ H), glue_flat.
  cbn [glue fold_right]. now rewrite append_nil_r.
Qed.

Lemma includes_append_r (sub a b : string) :
  includes sub b = true -> includes sub (a ++ b) = true.
Proof.
  intros H. induction a as [|c a IH]; [exact H |].
  rewrite append_cons. cbn [includes]. rewrite IH. apply orb_true_r.
Qed.

Lemma startsWith_append_more (sub a b : string) :
  startsWith sub a = true -> startsWith sub (a ++ b) = true.
Proof.
  revert a. induction sub as [|x sub IH]; intros a H; [reflexivity |].
  destruct a as [|y a]; [discriminate |].
  rewrite append_cons. cbn [startsWith] in *.
  apply andb_true_iff in H as [-> H]. now rewrite (IH _ H).
Qed.

Lemma includes_append_l (sub a b : string) :
  includes sub a = true -> includes sub (a ++ b) = true.
Proof.
  induction a as [|c a IH]; intros H.
  - destruct sub; [| discriminate]. apply includes_here. reflexivity.
  - cbn [includes] in H. apply orb_true_iff in H as [H | H].
    + apply includes_here. now apply startsWith_append_more.
    + rewrite append_cons. cbn [includes]. rewrite (IH H). apply orb_true_r.
Qed.

(** A string found in a literal piece of a template is found in its text. *)
Lemma includes_glue (sub : string) (ps : list piece) :
  existsb (fun p => match p with
                    | PLit s => includes sub s
                    | PHole _ => false
                    end) ps = true ->
  includes sub (glue ps) = true.
Proof.
  induction ps as [|[s|s] ps IH]; intros H; [discriminate | |].
  - cbn [existsb] in H. change (glue (PLit s :: ps)) with (s ++ glue ps).
    apply orb_true_iff in H as [H | H].
    + now apply includes_append_l.
    + now apply includes_append_r, IH.
  - change (glue (PHole s :: ps)) with (s ++ glue ps).
    now apply includes_append_r, IH.
Qed.

Lemma includes_textOf (sub : string) (t : tpl) :
  existsb (fun p => match p with
                    | PLit s => includes sub s
                    | PHole _ => false
                    end) (flat t []) = true ->
  includes sub (textOf t) = true.
Proof.
  intros H. apply includes_glue in H. rewrite glue_flat in H.
  cbn [glue fold_right] in H. now rewrite append_nil_r in H.
Qed.

(** Reading a string off as a template built from [lit], [hole] and [cat]:
    its holes are the variables. *)
Ltac reify lit hole cat s :=
  lazymatch s with
  | append ?a ?b =>
      let ta := reify lit hole cat a in
      let tb := reify lit hole cat b in
      constr:(cat ta tb)
  | _ =>
      match s with
      | _ => let _ := match goal with _ => is_var s end in constr:(hole s)
      | _ => constr:(lit s)
      end
  end.

Ltac name_values :=
  repeat match goal with
         | |- context [ToString ?v] =>
             let x := fresh "v" in remember (ToString v) as x
         end.

(** *** Dates *)

Lemma hasChar_append (c : ascii) (a b : string) :
  hasChar c (a ++ b) = hasChar c a || hasChar c b.
Proof.
  induction a as [|x a IH]; [reflexivity |].
  rewrite append_cons. simpl. rewrite IH. apply orb_assoc.
Qed.

Lemma split_at_first (c : ascii) (a b : string) :
  hasChar c a = false ->
  split c (a ++ String c b) = a :: split c b.
Proof.
  induction a as [|x a IH]; intros H.
  - rewrite append_nil_l. simpl. now rewrite Ascii.eqb_refl.
  - rewrite append_cons. simpl in *.
    apply orb_false_iff in H as [Hx Ha].
    now rewrite Hx, (IH Ha).
Qed.

Lemma nat_of_digit (n : nat) : nat_of_ascii (digit n) = 48 + n mod 10.
Proof.
  unfold digit. apply nat_ascii_embedding.
  pose proof (Nat.mod_upper_bound n 10). lia.
Qed.

Lemma is_digit_digit (n : nat) : is_digit (digit n) = true.
Proof.
  unfold is_digit. rewrite nat_of_digit.
  pose proof (Nat.mod_upper_bound n 10).
  apply andb_true_iff; split; apply Nat.leb_le; lia.
Qed.

Lemma digit_not_T (n : nat) : Ascii.eqb (digit n) "T" = false.
Proof.
  apply Ascii.eqb_neq. intros E.
  apply (f_equal nat_of_ascii) in E. rewrite nat_of_digit in E.
  change (nat_of_ascii "T") with 84 in E.
  pose proof (Nat.mod_upper_bound n 10). lia.
Qed.

Lemma pad_no_T (width n : nat) : hasChar "T" (pad width n) = false.
Proof.
  revert n. induction width as [|width IH]; intros n; [reflexivity |].
  cbn [pad]. rewrite hasChar_append, IH.
  cbn [hasChar orb]. now rewrite digit_not_T.
Qed.

Lemma isoDate_no_T (d : Date) : hasChar "T" (isoDate d) = false.
Proof.
  unfold isoDate, isoYear.
  destruct ((0 <=? year d)%Z && (year d <=? 9999)%Z);
    [| destruct (year d <? 0)%Z];
    rewrite ?hasChar_append, ?pad_no_T; reflexivity.
Qed.

(** The date part of [toISOString]: what precedes the first [T]. *)
Lemma first_split_toISOString (d : Date) :
  first (split "T" (toISOString d)) = text (isoDate d).
Proof.
  unfold toISOString.
  change ("T" ++ ?x) with (String "T" x).
  now rewrite split_at_first by apply isoDate_no_T.
Qed.

Lemma isoDate_shape (d : Date) :
  (0 <= year d <= 9999)%Z -> is_YYYY_MM_DD (isoDate d) = true.
Proof.
  intros [H0 H1]. unfold isoDate, isoYear.
  apply Z.leb_le in H0, H1. rewrite H0, H1. cbn [andb].
  unfold is_YYYY_MM_DD. cbn [pad].
  repeat first [rewrite append_cons | rewrite append_nil_l].
  cbn [list_ascii_of_string forallb].
  now rewrite !is_digit_digit.
Qed.

(** ** Facts about running programs *)

Lemma run_bind {A B} (p : prog A) (f : A -> prog B) (w : World) :
  run (bind p f) w =
  match run p w with
  | (Returned a, w') => run (f a) w'
  | (Thrown e, w') => (Thrown e, w')
  | (Suspended ms k, w') => (Suspended ms (bind k f), w')
  end.
Proof.
  revert w. induction p as [a|e|ms k IH|B' o k IH]; intros w; simpl; try reflexivity.
  destruct (perform o w) as [b w']. apply IH.
Qed.

Lemma run_try_finally {A} (body : prog A) (fin : prog unit) (w : World) :
  run (try_finally body fin) w =
  match run body w with
  | (Returned a, w') => run (fin ;; Ret a) w'
  | (Thrown e, w') => run (fin ;; Throw e) w'
  | (Suspended ms k, w') => (Suspended ms (try_finally k fin), w')
  end.
Proof.
  revert w. induction body as [a|e|ms k IH|B' o k IH]; intros w; simpl; try reflexivity.
  destruct (perform o w) as [b w']. apply IH.
Qed.

(** With the flag reset as the [finally] block, a body that runs to its end
    leaves the flag cleared, whether it returned or threw. *)
Lemma run_try_finally_clears {A} (body : prog A) (w : World) :
  settled (fst (run body w)) = true ->
  run (try_finally body (trigger (SetIsGenerating false))) w =
  (fst (run body w), set_isGenerating false (snd (run body w))).
Proof.
  intros H. rewrite run_try_finally.
  destruct (run body w) as [[a|e|ms k] w']; simpl in *; try reflexivity.
  discriminate.
Qed.

(** ** The methods, run *)

Ltac step := cbn [run exec bind trigger perform of_object try_finally fst snd].

Ltac cases :=
  repeat (step;
          match goal with
          | |- context [of_object ?x _] => destruct x eqn:?
          | |- context [match ?x with Some _ => _ | None => _ end] =>
              destruct x eqn:?
          | |- context [if ?b then _ else _] => destruct b eqn:?
          end).

Lemma run_generateFilename (r : ref) (language : string) (w : World)
    (obj : AnalysisResult) (d : Disease.t) (names : gmap string string) :
  heap w !! r = Some obj -> disease obj = Some d -> Disease.name d = Some names ->
  run (generateFilename r language) w =
  (Returned ((if language =? "ar" then "تقرير-التشخيص-" else "diagnosis-report-") ++
             ToString (logicalOr (index names language) (text "unknown")) ++ "-" ++
             isoDate (clock w) ++ ".pdf"), w).
Proof.
  intros Hobj Hd Hn. unfold generateFilename.
  step. rewrite Hobj. step. rewrite Hd. step. rewrite Hn. step.
  rewrite first_split_toISOString.
  destruct (language =? "ar"); reflexivity.
Qed.

(** [generateFilename] is synchronous and changes nothing. *)
Lemma generateFilename_frame (r : ref) (language : string) (w : World) :
  settled (fst (run (generateFilename r language) w)) = true /\
  snd (run (generateFilename r language) w) = w.
Proof. unfold generateFilename. cases; split; reflexivity. Qed.

(** After its delay [simulatePDFGeneration] runs to its end; it registers
    one object URL and, when it returns, the blob holds the generated
    content. *)
Lemma simulatePDFGeneration_resumes (r : ref) (language : string) :
  exists body,
    simulatePDFGeneration r language = Await 2000 body /\
    forall w,
      let payload := {| blobParts := [generatePDFContent r language];
                        type := "application/pdf" |} in
      settled (fst (run body w)) = true /\
      snd (run body w) = set_objectURLs (objectURLs w ++ [payload])%list w /\
      forall a, fst (run body w) = Returned a -> blob a = payload.
Proof.
  eexists. split; [reflexivity |]. intros w blob0.
  step. rewrite run_bind.
  pose proof (generateFilename_frame r language
                (set_objectURLs (objectURLs w ++ [blob0])%list w)) as [Hs Hw].
  destruct (run (generateFilename r language) _) as [[name|e|ms k] w'];
    simpl in Hs, Hw; subst w'; try discriminate; step.
  - repeat split. intros a [= <-]. reflexivity.
  - repeat split. intros a [=].
Qed.

Lemma exec_settled {A} (p : prog A) (env : list (World -> World)) (w : World) :
  settled (fst (run p w)) = true -> exec p env w = run p w.
Proof.
  revert w. induction p as [a|e|ms k IH|B' o k IH]; intros w; simpl;
    try reflexivity; try discriminate.
  destruct (perform o w) as [b w']. apply IH.
Qed.

Lemma generateReport_busy (r : ref) (language : option string) (w : World) :
  isGenerating w = true ->
  run (generateReport r language) w = (Thrown alreadyInProgress, w).
Proof. intros H. unfold generateReport. step. now rewrite H. Qed.

Lemma generateReport_idle (r : ref) (language : option string) (w : World) :
  isGenerating w = false ->
  exists k,
    run (generateReport r language) w = (Suspended 2000 k, set_isGenerating true w) /\
    (forall env,
        exec (generateReport r language) env w =
        match env with
        | [] => run k (set_isGenerating true w)
        | f :: _ => run k (f (set_isGenerating true w))
        end) /\
    forall w1,
      let payload := {| blobParts := [generatePDFContent r (default "ar" language)];
                        type := "application/pdf" |} in
      settled (fst (run k w1)) = true /\
      snd (run k w1) =
        set_isGenerating false
          (set_objectURLs (objectURLs w1 ++ [payload])%list w1) /\
      forall a, fst (run k w1) = Returned a -> blob a = payload.
Proof.
  intros H.
  destruct (simulatePDFGeneration_resumes r (default "ar" language))
    as (body & Hsim & Hbody).
  exists (try_finally body (trigger (SetIsGenerating false))).
  assert (Hk : forall w1,
             run (try_finally body (trigger (SetIsGenerating false))) w1 =
             (fst (run body w1), set_isGenerating false (snd (run body w1)))).
  { intros w1. apply run_try_finally_clears, Hbody. }
  split; [| split].
  - unfold generateReport. step. rewrite H. step. rewrite Hsim. reflexivity.
  - intros env. unfold generateReport. step. rewrite H. step. rewrite Hsim.
    step. destruct env as [|f env]; apply exec_settled; rewrite Hk; apply Hbody.
  - intros w1 payload. rewrite Hk. cbn [fst snd].
    destruct (Hbody w1) as (Hs & Hw & Ha). rewrite Hw. auto.
Qed.

(** [name[language] || 'unknown'], printed. *)
(** *** Sessions *)

Lemma consistent_fresh (w : World) : consistent (fresh w).
Proof. reflexivity. Qed.

Lemma consistent_react (e : event) (s : Session) :
  keepsFlag e -> consistent s -> consistent (snd (react e s)).
Proof.
  intros He Hs. destruct s as [w [k|]]; unfold consistent in *;
    cbn [pending world] in *.
  - destruct Hs as [Hflag Hk]. destruct e as [r l| |f]; cbn [react pending world].
    + rewrite (generateReport_busy r l w Hflag). cbn [snd pending world]. auto.
    + destruct (Hk w) as [Hsettled Hclear].
      destruct (run k w) as [[a|x|ms k'] w']; cbn [fst snd] in *;
        try discriminate; exact Hclear.
    + cbn [snd pending world]. split; [| exact Hk]. now rewrite (He w).
  - destruct e as [r l| |f]; cbn [react pending world].
    + destruct (generateReport_idle r l w Hs) as (k & Hrun & _ & Hk).
      rewrite Hrun. cbn [snd pending world]. split; [reflexivity |].
      intros w1. destruct (Hk w1) as (H1 & H2 & _). split; [exact H1 |].
      now rewrite H2.
    + exact Hs.
    + cbn [snd pending world]. now rewrite (He w).
Qed.

(** From a new generator on, whatever is called and whenever the timer
    fires, the flag is set exactly while a call is pending. *)
Lemma consistent_play (es : list event) (s : Session) :
  Forall keepsFlag es -> consistent s -> consistent (play es s).
Proof.
  intros Hes. revert s. induction Hes as [|e es He _ IH]; intros s Hs.
  - exact Hs.
  - apply IH. now apply consistent_react.
Qed.

(** In a consistent session a call is refused exactly when one is pending. *)
Lemma react_call (r : ref) (language : option string) (s : Session) :
  consistent s ->
  match pending s with
  | Some _ => react (Calls r language) s = (Some (Thrown alreadyInProgress), s)
  | None => fst (react (Calls r language) s) = None /\
            pending (snd (react (Calls r language) s)) <> None
  end.
Proof.
  intros Hs. destruct s as [w [k|]]; unfold consistent in Hs;
    cbn [pending world react] in *.
  - destruct Hs as [Hflag _]. now rewrite (generateReport_busy r language w Hflag).
  - destruct (generateReport_idle r language w Hs) as (k & Hrun & _).
    rewrite Hrun. split; [reflexivity | discriminate].
Qed.

Lemma diseaseName_or_unknown (names : gmap string string) (language : string) :
  ToString (logicalOr (index names language) (text "unknown")) =
  match names !! language with
  | Some n => if n =? EmptyString then "unknown" else n
  | None => "unknown"
  end.
Proof.
  unfold index. destruct (names !! language) as [n|]; [| reflexivity].
  unfold logicalOr. cbn [ToBoolean]. destruct (n =? EmptyString); reflexivity.
Qed.

Lemma run_generateHTMLSections (r : ref) (language : string) (w : World)
    (obj : AnalysisResult) (p : Parts) :
  heap w !! r = Some obj -> parts obj = Some p ->
  run (generateHTMLSections r language) w =
  (Returned (String.concat EmptyString (map sectionBlock (sectionsOf p language))), w).
Proof.
  intros Hobj Hp. unfold parts in Hp.
  unfold generateHTMLSections. step. rewrite Hobj. step.
  repeat match type of Hp with
         | context [mbind _ ?o] =>
             destruct o eqn:?; cbn [mbind option_bind] in Hp; [| discriminate];
             step
         end.
  injection Hp as <-. reflexivity.
Qed.

Lemma run_generatePrintableHTML (r : ref) (language : string) (w : World)
    (obj : AnalysisResult) (p : Parts) :
  heap w !! r = Some obj -> parts obj = Some p ->
  run (generatePrintableHTML r language) w =
  (Returned
     (printableTemplate language
        (if language =? "ar" then "rtl" else "ltr")
        (if language =? "ar" then "right" else "left")
        (toLocaleDateString (clock w) (if language =? "ar" then "ar-SA" else "en-US"))
        (ToString (overallConfidence obj))
        (String.concat EmptyString (map sectionBlock (sectionsOf p language)))), w).
Proof.
  intros Hobj Hp. unfold generatePrintableHTML. step. rewrite Hobj. step.
  rewrite run_bind, (run_generateHTMLSections _ _ _ _ _ Hobj Hp). reflexivity.
Qed.

(** The rendering methods are synchronous and change nothing. *)
Lemma generateHTMLSections_frame (r : ref) (language : string) (w : World) :
  settled (fst (run (generateHTMLSections r language) w)) = true /\
  snd (run (generateHTMLSections r language) w) = w.
Proof. unfold generateHTMLSections. cases; split; reflexivity. Qed.

(** The outcome of [generateHTMLSections] depends on the world through the
    analysis result only. *)
Lemma generateHTMLSections_same (r : ref) (language : string) (w1 w2 : World) :
  heap w1 !! r = heap w2 !! r ->
  fst (run (generateHTMLSections r language) w1) =
  fst (run (generateHTMLSections r language) w2).
Proof.
  intros H. unfold generateHTMLSections. step. rewrite H.
  destruct (heap w2 !! r) as [obj|]; cases; reflexivity.
Qed.

Lemma generatePrintableHTML_frame (r : ref) (language : string) (w : World) :
  settled (fst (run (generatePrintableHTML r language) w)) = true /\
  snd (run (generatePrintableHTML r language) w) = w.
Proof.
  unfold generatePrintableHTML. step.
  destruct (heap w !! r) as [obj|]; step; [| split; reflexivity].
  rewrite run_bind.
  pose proof (generateHTMLSections_frame r language w) as [Hs Hw].
  destruct (run (generateHTMLSections r language) w) as [[html|e|ms k] w'];
    simpl in Hs, Hw; subst; try discriminate; split; reflexivity.
Qed.

Lemma occurrences_printableTemplate (language date confidence sections : string) :
  language = "ar" \/ language = "en" ->
  occurrences sectionOpen
    (printableTemplate language
       (if language =? "ar" then "rtl" else "ltr")
       (if language =? "ar" then "right" else "left")
       date confidence sections) =
  occurrences sectionOpen date + occurrences sectionOpen confidence +
  occurrences sectionOpen sections.
Proof.
  intros [-> | ->]; unfold printableTemplate;
    lazymatch goal with
    | |- occurrences ?m ?s = _ =>
        let t := reify Lit Hole Cat s in
        change s with (textOf t);
        rewrite (occurrences_textOf m t) by (vm_compute; reflexivity);
        let lc := eval vm_compute in (literalCount m (flat t [])) in
        let hs := eval vm_compute in (holes (flat t [])) in
        replace (literalCount m (flat t [])) with lc by (vm_compute; reflexivity);
        replace (holes (flat t [])) with hs by (vm_compute; reflexivity);
        cbn [map list_sum fold_right]
    end;
    lia.
Qed.

Lemma occurrences_sections (p : Parts) (language : string) :
  language = "ar" \/ language = "en" ->
  occurrences sectionOpen
    (String.concat EmptyString (map sectionBlock (sectionsOf p language))) =
  4 + list_sum (map (occurrences sectionOpen) (sectionValues p language)).
Proof.
  intros [-> | ->];
    unfold sectionsOf, sectionList, sectionValues, sectionBlock;
    cbn [map String.concat title content list_sum fold_right];
    name_values;
    lazymatch goal with
    | |- occurrences ?m ?s = _ =>
        let t := reify Lit Hole Cat s in
        change s with (textOf t);
        rewrite (occurrences_textOf m t) by (vm_compute; reflexivity);
        let lc := eval vm_compute in (literalCount m (flat t [])) in
        let hs := eval vm_compute in (holes (flat t [])) in
        replace (literalCount m (flat t [])) with lc by (vm_compute; reflexivity);
        replace (holes (flat t [])) with hs by (vm_compute; reflexivity);
        cbn [map list_sum fold_right]
    end;
    lia.
Qed.

(** The sections sit between a head and a tail of the document. *)
Lemma cut_before (a s x : string) :
  (exists head tail, s = head ++ x ++ tail) ->
  exists head tail, a ++ s = head ++ x ++ tail.
Proof.
  intros (head & tail & ->). exists (a ++ head), tail.
  now rewrite append_assoc.
Qed.

Lemma cut_here (x t : string) : exists head tail, x ++ t = head ++ x ++ tail.
Proof. now exists EmptyString, t. Qed.

Lemma printableTemplate_sections
    (language direction textAlign date confidence sections : string) :
  exists head tail,
    printableTemplate language direction textAlign date confidence sections =
    head ++ sections ++ tail.
Proof.
  unfold printableTemplate.
  repeat first [apply cut_here | apply cut_before].
Qed.

(** *** Read-only programs *)

Lemma perform_heap {B} (o : op B) (w : World) :
  writesHeap o = false -> heap (snd (perform o w)) = heap w.
Proof.
  destruct o; intros H; try reflexivity; try discriminate.
  cbn [perform]. destruct (popupsBlocked w); reflexivity.
Qed.

Lemma exec_heap {A} (p : prog A) (env : list (World -> World)) (w : World) :
  readOnly p -> Forall keepsHeap env -> heap (snd (exec p env w)) = heap w.
Proof.
  revert env w. induction p as [a|e|ms k IH|B' o k IH]; intros env w Hp Henv;
    cbn [exec readOnly] in *; try reflexivity.
  - destruct Henv as [|f env Hf Henv]; [now apply IH |].
    rewrite (IH _ _ Hp Henv). apply Hf.
  - destruct Hp as [Ho Hk]. pose proof (perform_heap o w Ho) as Hw.
    destruct (perform o w) as [b w']. cbn [snd] in Hw.
    now rewrite (IH _ _ _ (Hk b) Henv).
Qed.

Lemma readOnly_bind {A B} (p : prog A) (f : A -> prog B) :
  readOnly p -> (forall a, readOnly (f a)) -> readOnly (bind p f).
Proof.
  intros Hp Hf. induction p as [a|e|ms k IH|B' o k IH]; cbn [bind readOnly] in *.
  - apply Hf.
  - exact I.
  - now apply IH.
  - destruct Hp as [Ho Hk]. split; [exact Ho |]. intros b. now apply IH.
Qed.

Lemma readOnly_try_finally {A} (body : prog A) (fin : prog unit) :
  readOnly body -> readOnly fin -> readOnly (try_finally body fin).
Proof.
  intros Hb Hf.
  induction body as [a|e|ms k IH|B' o k IH]; cbn [try_finally readOnly] in *.
  - apply readOnly_bind; [exact Hf | intros _; exact I].
  - apply readOnly_bind; [exact Hf | intros _; exact I].
  - now apply IH.
  - destruct Hb as [Ho Hk]. split; [exact Ho |]. intros b. now apply IH.
Qed.

Lemma readOnly_of_object {A} (o : option A) (key : string) :
  readOnly (of_object o key).
Proof. destruct o; exact I. Qed.

Lemma readOnly_trigger {B} (o : op B) :
  writesHeap o = false -> readOnly (trigger o).
Proof. intros H. split; [exact H | intros b; exact I]. Qed.

(** None of the methods stores to an analysis result. *)
Lemma readOnly_methods (r : ref) (language : string) (optional : option string) :
  readOnly (generateReport r optional) /\
  readOnly (generateFilename r language) /\
  readOnly (generatePrintableHTML r language) /\
  readOnly (printHTMLReport r language).
Proof.
  unfold generateReport, alreadyInProgress, simulatePDFGeneration,
    printHTMLReport, generatePrintableHTML, generateHTMLSections,
    generateFilename.
  repeat match goal with |- _ /\ _ => split end;
    repeat first
      [ exact I
      | apply readOnly_of_object
      | apply readOnly_trigger; reflexivity
      | apply readOnly_try_finally
      | apply readOnly_bind
      | progress cbn [readOnly]
      | intro
      | match goal with
        | |- context [if ?b then _ else _] => destruct b
        end ].
Qed.

(** ** The claims *)

(** C1. A call of [generateReport] that finds the flag set fails at once with
    the error "PDF generation already in progress" and changes nothing.  A
    call that finds it clear sets it and is suspended on the timer before any
    work is done; while it is pending every other call fails in that way;
    when it resumes it runs to its end and, whether it returns or throws,
    leaves the flag clear, so that the next call is accepted. *)
Theorem generateReport_single_flight
    (analysisResults : ref) (language : option string) (w : World) :
  (isGenerating w = true ->
   run (generateReport analysisResults language) w = (Thrown alreadyInProgress, w)) /\
  (isGenerating w = false ->
   exists k,
     run (generateReport analysisResults language) w =
       (Suspended 2000 k, set_isGenerating true w) /\
     (forall r' l',
         run (generateReport r' l') (set_isGenerating true w) =
           (Thrown alreadyInProgress, set_isGenerating true w)) /\
     forall w1,
       settled (fst (run k w1)) = true /\
       isGenerating (snd (run k w1)) = false /\
       forall r' l', exists k',
         run (generateReport r' l') (snd (run k w1)) =
           (Suspended 2000 k', set_isGenerating true (snd (run k w1)))) /\
  (exists message,
      alreadyInProgress = Error message /\
      includes "generation already in progress" message = true).
Proof.
  split; [| split].
  - apply generateReport_busy.
  - intros H.
    destruct (generateReport_idle analysisResults language w H) as (k & Hrun & _ & Hk).
    exists k. split; [exact Hrun |]. split.
    + intros r' l'. now apply generateReport_busy.
    + intros w1. destruct (Hk w1) as (Hs & Hw & _).
      split; [exact Hs |].
      assert (Hclear : isGenerating (snd (run k w1)) = false) by now rewrite Hw.
      split; [exact Hclear |].
      intros r' l'.
      destruct (generateReport_idle r' l' _ Hclear) as (k' & Hrun' & _).
      now exists k'.
  - eexists. split; [reflexivity |]. reflexivity.
Qed.

(** C2 (amended). For a complete analysis result and a supported language,
    the document is some head, then the blocks of the sections in the order
    of the list, then some tail; the list has four sections, titled breed,
    weight, suspected disease and treatment in that order; and when neither
    the printed date nor a printed field value contains the opening tag of
    a section, that tag occurs exactly four times in the document. *)
Theorem four_sections_in_order
    (analysisResults : ref) (language : string) (w : World)
    (obj : AnalysisResult) (p : Parts) :
  language = "ar" \/ language = "en" ->
  heap w !! analysisResults = Some obj ->
  parts obj = Some p ->
  exists html,
    run (generatePrintableHTML analysisResults language) w = (Returned html, w) /\
    (exists head tail,
        html = head ++
               String.concat EmptyString (map sectionBlock (sectionsOf p language)) ++
               tail) /\
    map title (sectionsOf p language) =
      [ if language =? "ar" then "نوع الدجاجة" else "Chicken Breed";
        if language =? "ar" then "الوزن التقديري" else "Estimated Weight";
        if language =? "ar" then "المرض المشتبه به" else "Suspected Disease";
        if language =? "ar" then "طريقة العلاج" else "Treatment" ] /\
    (Forall (fun v => occurrences sectionOpen v = 0)
       (toLocaleDateString (clock w)
          (if language =? "ar" then "ar-SA" else "en-US")
        :: printed obj p language) ->
     occurrences sectionOpen html = 4).
Proof.
  intros Hlang Hobj Hp. eexists. split.
  { apply (run_generatePrintableHTML _ _ _ _ _ Hobj Hp). }
  split; [apply printableTemplate_sections |].
  split; [reflexivity |].
  intros Hclean.
  rewrite (occurrences_printableTemplate _ _ _ _ Hlang),
    (occurrences_sections _ _ Hlang).
  inversion Hclean as [|? ? Hdate Hprinted]; subst.
  unfold printed in Hprinted.
  inversion Hprinted as [|? ? Hconf Hvalues]; subst.
  rewrite Hdate, Hconf.
  assert (Hsum : list_sum (map (occurrences sectionOpen)
                             (sectionValues p language)) = 0).
  { clear - Hvalues. induction Hvalues as [|v l Hv _ IH]; [reflexivity |].
    cbn [map list_sum fold_right] in *. rewrite Hv. exact IH. }
  rewrite Hsum. reflexivity.
Qed.

(** C3. With the disease object and its names present, [generateFilename]
    returns the prefix of the language, the disease name in that language
    (or [unknown] when it is absent or empty), a dash, the UTC calendar date
    of the clock and [.pdf].  For a year of four digits the date has the
    form YYYY-MM-DD.  Hence the file name contains the disease name when
    there is one and [unknown] when there is none, contains the date and ends
    with [.pdf]; for ['en'] and [Newcastle Disease] it is
    [diagnosis-report-Newcastle Disease-<date>.pdf]. *)
Theorem generateFilename_contents
    (analysisResults : ref) (language : string) (w : World)
    (obj : AnalysisResult) (d : Disease.t) (names : gmap string string) :
  heap w !! analysisResults = Some obj ->
  disease obj = Some d ->
  Disease.name d = Some names ->
  (0 <= year (clock w) <= 9999)%Z ->
  let date := isoDate (clock w) in
  let shown := match names !! language with
               | Some n => if n =? EmptyString then "unknown" else n
               | None => "unknown"
               end in
  exists file,
    run (generateFilename analysisResults language) w = (Returned file, w) /\
    file = (if language =? "ar" then "تقرير-التشخيص-" else "diagnosis-report-") ++
           shown ++ "-" ++ date ++ ".pdf" /\
    is_YYYY_MM_DD date = true /\
    includes date file = true /\
    endsWith ".pdf" file = true /\
    (forall n, names !! language = Some n -> includes n file = true) /\
    (names !! language = None -> includes "unknown" file = true) /\
    (language = "en" -> names !! "en" = Some "Newcastle Disease" ->
     file = "diagnosis-report-Newcastle Disease-" ++ date ++ ".pdf").
Proof.
  intros Hobj Hd Hn Hy date shown.
  eexists. split.
  { rewrite (run_generateFilename _ _ _ _ _ _ Hobj Hd Hn), diseaseName_or_unknown.
    reflexivity. }
  fold date shown.
  set (pre := if language =? "ar" then _ else _).
  split; [reflexivity |].
  split; [now apply isoDate_shape |].
  split.
  { rewrite <- (append_assoc shown), <- (append_assoc pre).
    apply includes_append. }
  split.
  { rewrite <- (append_assoc "-" date), <- (append_assoc shown), <- (append_assoc pre).
    apply endsWith_append. }
  split.
  { intros n Hname. subst shown. rewrite Hname.
    destruct (n =? EmptyString) eqn:E.
    - apply String.eqb_eq in E. subst n. apply includes_here. reflexivity.
    - apply includes_append. }
  split.
  { intros Hname. subst shown. rewrite Hname. apply includes_append. }
  intros -> Hname. subst shown pre. rewrite Hname. reflexivity.
Qed.

(** C4. For a complete analysis result the document begins with the doctype,
    the root element with [dir] set to the direction and [lang] to the
    language, the head up to the style sheet, and the rule of [body] that
    sets [direction] and [text-align]; the direction is [rtl] and the
    alignment [right] when the language is ['ar'], and [ltr] and [left] for
    every other language. *)
Theorem document_direction
    (analysisResults : ref) (language : string) (w : World)
    (obj : AnalysisResult) (p : Parts) :
  heap w !! analysisResults = Some obj ->
  parts obj = Some p ->
  exists direction textAlign html rest,
    run (generatePrintableHTML analysisResults language) w = (Returned html, w) /\
    html =
      "
            <!DOCTYPE html>
            <html dir=" ++
      q direction ++
      " lang=" ++
      q language ++
      ">
            <head>
                <meta charset=" ++
      q "UTF-8" ++
      ">
                <title>" ++
      (if language =? "ar" then "تقرير التشخيص الشامل" else "Comprehensive Diagnosis Report") ++
      "</title>
                <style>
                    body {
                        font-family: 'Tajawal', Arial, sans-serif;
                        direction: " ++
      direction ++
      ";
                        text-align: " ++
      textAlign ++
      ";" ++
    rest /\
    (language = "ar" -> direction = "rtl" /\ textAlign = "right") /\
    (language <> "ar" -> direction = "ltr" /\ textAlign = "left").
Proof.
  intros Hobj Hp.
  exists (if language =? "ar" then "rtl" else "ltr").
  exists (if language =? "ar" then "right" else "left").
  exists (printableTemplate language
            (if language =? "ar" then "rtl" else "ltr")
            (if language =? "ar" then "right" else "left")
            (toLocaleDateString (clock w)
               (if language =? "ar" then "ar-SA" else "en-US"))
            (ToString (overallConfidence obj))
            (String.concat EmptyString
               (map sectionBlock (sectionsOf p language)))).
  unfold printableTemplate.
  lazymatch goal with
  | |- exists rest, _ = (_, _) /\
         _ ++ _ ++ _ ++ _ ++ _ ++ _ ++ _ ++ _ ++ _ ++ _ ++ _ ++ _ ++ ?X = _ /\ _ =>
      exists (tail X)
  end.
  split.
  { apply (run_generatePrintableHTML _ _ _ _ _ Hobj Hp). }
  split.
  - reflexivity.
  - split.
    + intros ->. split; reflexivity.
    + intros Hne. apply String.eqb_neq in Hne. rewrite Hne. split; reflexivity.
Qed.

(** C5. [generatePrintableHTML] is synchronous, leaves the world as it found
    it, and its outcome is the same in any two worlds that agree on the
    clock and on the analysis result: it does not depend on the flag, the
    object URLs or the windows. *)
Theorem generatePrintableHTML_pure
    (analysisResults : ref) (language : string) (w1 w2 : World) :
  clock w1 = clock w2 ->
  heap w1 !! analysisResults = heap w2 !! analysisResults ->
  fst (run (generatePrintableHTML analysisResults language) w1) =
  fst (run (generatePrintableHTML analysisResults language) w2) /\
  settled (fst (run (generatePrintableHTML analysisResults language) w1)) = true /\
  snd (run (generatePrintableHTML analysisResults language) w1) = w1 /\
  snd (run (generatePrintableHTML analysisResults language) w2) = w2.
Proof.
  intros Hclock Hheap.
  split; [| split; [| split]]; try apply generatePrintableHTML_frame.
  pose proof (generateHTMLSections_same analysisResults language w1 w2 Hheap) as Hs.
  unfold generatePrintableHTML. step. rewrite Hclock, Hheap.
  destruct (heap w2 !! analysisResults) as [obj|]; step; [| reflexivity].
  rewrite !run_bind.
  destruct (run (generateHTMLSections analysisResults language) w1) as [s1 w1'].
  destruct (run (generateHTMLSections analysisResults language) w2) as [s2 w2'].
  cbn [fst] in Hs. subst s2. destruct s1; reflexivity.
Qed.

(** C6. For a complete analysis result whose overall confidence is the
    number 87 and a supported language, the confidence hole of the document
    is filled with [87] and the document contains the confidence block with
    the text [87%]. *)
Theorem confidence_87
    (analysisResults : ref) (language : string) (w : World)
    (obj : AnalysisResult) (p : Parts) :
  language = "ar" \/ language = "en" ->
  heap w !! analysisResults = Some obj ->
  parts obj = Some p ->
  overallConfidence obj = number 87 ->
  exists html date sections,
    run (generatePrintableHTML analysisResults language) w = (Returned html, w) /\
    html = printableTemplate language
             (if language =? "ar" then "rtl" else "ltr")
             (if language =? "ar" then "right" else "left")
             date "87" sections /\
    includes
      (
      "<div class=" ++
      q "confidence" ++
      ">
                    <h3>" ++
      (if language =? "ar" then "مؤشر الثقة العام" else "Overall Confidence Indicator") ++
      "</h3>
                    <h2>87%</h2>
                </div>")
      html = true.
Proof.
  intros Hlang Hobj Hp Hconf. do 3 eexists. split.
  { apply (run_generatePrintableHTML _ _ _ _ _ Hobj Hp). }
  rewrite Hconf. split; [reflexivity |].
  generalize (toLocaleDateString (clock w)
                (if language =? "ar" then "ar-SA" else "en-US")).
  generalize (String.concat EmptyString (map sectionBlock (sectionsOf p language))).
  intros sections date.
  destruct Hlang as [-> | ->]; unfold printableTemplate;
    lazymatch goal with
    | |- includes ?m ?s = true =>
        let t := reify Lit Hole Cat s in
        change s with (textOf t);
        apply includes_textOf; vm_compute; reflexivity
    end.
Qed.

(** C7. Omitting the language is the same as passing ['ar']: the two calls
    are the same program, hence yield the same artifact and the same world
    whatever the host does while they are pending. *)
Theorem generateReport_default_language
    (analysisResults : ref) (env : list (World -> World)) (w : World) :
  generateReport analysisResults None = generateReport analysisResults (Some "ar") /\
  exec (generateReport analysisResults None) env w =
  exec (generateReport analysisResults (Some "ar")) env w.
Proof. split; reflexivity. Qed.

(** C8 (amended). When the host blocks popups [window.open] returns [null]:
    [printHTMLReport] then opens no window and no print dialog and leaves
    the world as it was, but it does not end silently: it throws a
    [TypeError] to its caller, which for a complete analysis result is the
    one raised by reading [document] of the missing window. *)
Theorem printHTMLReport_blocked
    (analysisResults : ref) (language : string) (w : World) :
  popupsBlocked w = true ->
  (exists reading,
      run (printHTMLReport analysisResults language) w =
      (Thrown (TypeError reading), w)) /\
  forall obj p,
    heap w !! analysisResults = Some obj ->
    parts obj = Some p ->
    run (printHTMLReport analysisResults language) w =
    (Thrown (TypeError "document"), w).
Proof.
  intros Hblocked.
  assert (Hcomplete : forall obj p,
             heap w !! analysisResults = Some obj ->
             parts obj = Some p ->
             run (printHTMLReport analysisResults language) w =
             (Thrown (TypeError "document"), w)).
  { intros obj p Hobj Hp. unfold printHTMLReport. step. rewrite Hblocked.
    rewrite run_bind, (run_generatePrintableHTML _ _ _ _ _ Hobj Hp).
    reflexivity. }
  split; [| exact Hcomplete].
  unfold printHTMLReport, generatePrintableHTML, generateHTMLSections.
  step. rewrite Hblocked. cases; eexists; reflexivity.
Qed.

(** C9. No method writes to an analysis result: the objects of the caller
    are the same after [generateReport], [generateFilename],
    [generatePrintableHTML] and [printHTMLReport] as before, whatever the
    arguments, the world and the outcome, provided the host itself leaves
    them alone while the generation is pending. *)
Theorem analysis_result_not_mutated
    (analysisResults : ref) (language : string) (optional : option string)
    (env : list (World -> World)) (w : World) :
  Forall keepsHeap env ->
  heap (snd (exec (generateReport analysisResults optional) env w)) = heap w /\
  heap (snd (exec (generateFilename analysisResults language) env w)) = heap w /\
  heap (snd (exec (generatePrintableHTML analysisResults language) env w)) = heap w /\
  heap (snd (exec (printHTMLReport analysisResults language) env w)) = heap w.
Proof.
  intros Henv.
  destruct (readOnly_methods analysisResults language optional)
    as (Hreport & Hfilename & Hhtml & Hprint).
  repeat split; apply exec_heap; assumption.
Qed.

(** C10. The payload of a generated report is the fixed document text around
    the title of the language: it is the same for any two analysis results,
    in any two worlds, and only the title differs between languages. *)
Theorem payload_depends_only_on_language :
  (exists head tail : string,
      forall (analysisResults : ref) (language : string),
        generatePDFContent analysisResults language =
        head ++ (if language =? "ar" then "تقرير التشخيص الشامل"
                 else "Comprehensive Diagnosis Report") ++ tail) /\
  forall (R1 R2 : ref) (language : option string)
         (env1 env2 : list (World -> World)) (w1 w2 : World)
         (a1 a2 : Artifact),
    fst (exec (generateReport R1 language) env1 w1) = Returned a1 ->
    fst (exec (generateReport R2 language) env2 w2) = Returned a2 ->
    blob a1 = blob a2 /\
    blob a1 = {| blobParts := [generatePDFContent R1 (default "ar" language)];
                 type := "application/pdf" |}.
Proof.
  split.
  - eexists. eexists. intros r language. unfold generatePDFContent.
    reflexivity.
  - assert (payload : forall r language env w a,
               fst (exec (generateReport r language) env w) = Returned a ->
               blob a = {| blobParts := [generatePDFContent r (default "ar" language)];
                           type := "application/pdf" |}).
    { intros r language env w a Ha.
      destruct (isGenerating w) eqn:Hg.
      - unfold generateReport in Ha. revert Ha. step. rewrite Hg. discriminate.
      - destruct (generateReport_idle r language w Hg) as (k & _ & Hexec & Hk).
        rewrite Hexec in Ha.
        destruct env as [|f env]; eapply Hk; exact Ha. }
    intros R1 R2 language env1 env2 w1 w2 a1 a2 H1 H2.
    rewrite (payload _ _ _ _ _ H1), (payload _ _ _ _ _ H2). split; reflexivity.
Qed.

(** ** Further properties of the generator *)

(** *** Generating *)

(** X1. From a new generator on, whatever is called, whenever the timer fires
    and whatever else the host does without touching the flag, the flag is
    set exactly while a call is pending; a call made while one is pending is
    refused and changes nothing, and a call made while none is pending is
    accepted and becomes the pending one. *)
Theorem single_flight_on_every_trace (w : World) (es : list event) :
  Forall keepsFlag es ->
  let s := play es (fresh w) in
  (isGenerating (world s) = true <-> pending s <> None) /\
  forall r l,
    match pending s with
    | Some _ => react (Calls r l) s = (Some (Thrown alreadyInProgress), s)
    | None => fst (react (Calls r l) s) = None /\
              pending (snd (react (Calls r l) s)) <> None
    end.
Proof.
  intros Hes s.
  assert (Hs : consistent s) by (apply consistent_play; [exact Hes | apply consistent_fresh]).
  split.
  - unfold consistent in Hs. destruct (pending s) as [k|].
    + destruct Hs as [Hflag _]. split; [discriminate | intros _; exact Hflag].
    + rewrite Hs. split; [discriminate | intros H; now destruct H].
  - intros r l. apply react_call, Hs.
Qed.

(** X2. A call that is accepted ends, whether it returns or throws, in the
    world in which it resumed with the flag cleared and one more object URL,
    that of the payload: the generator registers exactly one URL per accepted
    call, revokes none, and touches nothing else. *)
Theorem generateReport_effect
    (analysisResults : ref) (language : option string)
    (env : list (World -> World)) (w : World) :
  isGenerating w = false ->
  let w1 := atResume env w in
  let payload :=
    {| blobParts := [generatePDFContent analysisResults (default "ar" language)];
       type := "application/pdf" |} in
  settled (fst (exec (generateReport analysisResults language) env w)) = true /\
  snd (exec (generateReport analysisResults language) env w) =
  set_isGenerating false (set_objectURLs (objectURLs w1 ++ [payload])%list w1).
Proof.
  intros Hidle w1 payload.
  destruct (generateReport_idle analysisResults language w Hidle)
    as (k & _ & Hexec & Hk).
  rewrite Hexec. subst w1. unfold atResume.
  destruct env as [|f env];
    match goal with
    | |- context [run k ?x] => destruct (Hk x) as (Hs & Hw & _)
    end; split; assumption.
Qed.

(** How an accepted call ends, in terms of [generateFilename]. *)
Lemma generateReport_exec
    (r : ref) (language : option string) (env : list (World -> World)) (w : World) :
  isGenerating w = false ->
  let w1 := atResume env w in
  let payload := {| blobParts := [generatePDFContent r (default "ar" language)];
                    type := "application/pdf" |} in
  let w2 := set_objectURLs (objectURLs w1 ++ [payload])%list w1 in
  (forall name,
      fst (run (generateFilename r (default "ar" language)) w2) = Returned name ->
      exec (generateReport r language) env w =
      (Returned {| blob := payload; url := List.length (objectURLs w1);
                   filename := name |}, set_isGenerating false w2)) /\
  (forall e,
      fst (run (generateFilename r (default "ar" language)) w2) = Thrown e ->
      exec (generateReport r language) env w =
      (Thrown e, set_isGenerating false w2)).
Proof.
  intros Hidle w1 payload w2.
  assert (Hbody : forall env' w',
             let w'' := set_objectURLs (objectURLs w' ++ [payload])%list w' in
             exec (try_finally
                     (url <- trigger (CreateObjectURL payload) ;;
                      filename <- generateFilename r (default "ar" language) ;;
                      Ret {| blob := payload; url := url; filename := filename |})
                     (trigger (SetIsGenerating false))) env' w' =
             match fst (run (generateFilename r (default "ar" language)) w'') with
             | Returned name =>
                 (Returned {| blob := payload; url := List.length (objectURLs w');
                              filename := name |}, set_isGenerating false w'')
             | Thrown e => (Thrown e, set_isGenerating false w'')
             | Suspended _ _ => (Thrown alreadyInProgress, w'')
             end).
  { intros env' w' w''.
    pose proof (generateFilename_frame r (default "ar" language) w'') as [Hs Hw].
    assert (Hrun : run (try_finally
                     (url <- trigger (CreateObjectURL payload) ;;
                      filename <- generateFilename r (default "ar" language) ;;
                      Ret {| blob := payload; url := url; filename := filename |})
                     (trigger (SetIsGenerating false))) w' =
             match fst (run (generateFilename r (default "ar" language)) w'') with
             | Returned name =>
                 (Returned {| blob := payload; url := List.length (objectURLs w');
                              filename := name |}, set_isGenerating false w'')
             | Thrown e => (Thrown e, set_isGenerating false w'')
             | Suspended _ _ => (Thrown alreadyInProgress, w'')
             end).
    { step. rewrite run_try_finally, run_bind. fold w''.
      destruct (run (generateFilename r (default "ar" language)) w'')
        as [[name|e|ms k] w3]; cbn [fst snd] in *; subst; try discriminate;
        reflexivity. }
    rewrite exec_settled; [exact Hrun |].
    rewrite Hrun.
    destruct (fst (run (generateFilename r (default "ar" language)) w''));
      reflexivity. }
  assert (Hexec : exec (generateReport r language) env w =
                  match fst (run (generateFilename r (default "ar" language)) w2) with
                  | Returned name =>
                      (Returned {| blob := payload;
                                   url := List.length (objectURLs w1);
                                   filename := name |}, set_isGenerating false w2)
                  | Thrown e => (Thrown e, set_isGenerating false w2)
                  | Suspended _ _ => (Thrown alreadyInProgress, w2)
                  end).
  { unfold generateReport. step. rewrite Hidle. step.
    unfold simulatePDFGeneration. step.
    subst w2 w1. unfold atResume. destruct env as [|f env]; apply Hbody. }
  split; intros x Hx; rewrite Hexec, Hx; reflexivity.
Qed.

(** X3. When the disease and its names are there as the call resumes, an
    accepted call returns an artifact whose URL is a new handle under which
    the world holds the artifact's blob, and whose file name is built from
    the analysis result and the clock as they are when the call resumes, not
    as they were when it was made. *)
Theorem generateReport_artifact
    (analysisResults : ref) (language : option string)
    (env : list (World -> World)) (w : World)
    (obj : AnalysisResult) (d : Disease.t) (names : gmap string string) :
  isGenerating w = false ->
  let w1 := atResume env w in
  heap w1 !! analysisResults = Some obj ->
  disease obj = Some d ->
  Disease.name d = Some names ->
  exists a w2,
    exec (generateReport analysisResults language) env w = (Returned a, w2) /\
    url a = List.length (objectURLs w1) /\
    objectURLs w2 !! url a = Some (blob a) /\
    filename a =
      (if default "ar" language =? "ar" then "تقرير-التشخيص-"
       else "diagnosis-report-") ++
      ToString (logicalOr (index names (default "ar" language)) (text "unknown")) ++
      "-" ++ isoDate (clock w1) ++ ".pdf".
Proof.
  intros Hidle w1 Hobj Hd Hn.
  destruct (generateReport_exec analysisResults language env w Hidle) as [Hret _].
  do 2 eexists. split.
  { apply Hret.
    rewrite (run_generateFilename analysisResults (default "ar" language) _ obj d names);
      [reflexivity | exact Hobj | exact Hd | exact Hn]. }
  split; [reflexivity |]. split; [| reflexivity].
  cbn [url blob objectURLs set_isGenerating set_objectURLs].
  apply list_lookup_middle. reflexivity.
Qed.

(** X4. When the analysis result, its disease or the names of the disease
    are missing as the call resumes, an accepted call throws the
    [TypeError] of the first missing one; by then it has registered the
    object URL of the payload, whose handle the caller never receives, and
    the flag is cleared. *)
Theorem generateReport_failure
    (analysisResults : ref) (language : option string)
    (env : list (World -> World)) (w : World) :
  isGenerating w = false ->
  let w1 := atResume env w in
  let payload :=
    {| blobParts := [generatePDFContent analysisResults (default "ar" language)];
       type := "application/pdf" |} in
  let w2 := set_isGenerating false
              (set_objectURLs (objectURLs w1 ++ [payload])%list w1) in
  (heap w1 !! analysisResults = None ->
   exec (generateReport analysisResults language) env w =
   (Thrown (TypeError "disease"), w2)) /\
  (forall obj,
      heap w1 !! analysisResults = Some obj -> disease obj = None ->
      exec (generateReport analysisResults language) env w =
      (Thrown (TypeError "name"), w2)) /\
  (forall obj d,
      heap w1 !! analysisResults = Some obj -> disease obj = Some d ->
      Disease.name d = None ->
      exec (generateReport analysisResults language) env w =
      (Thrown (TypeError (default "ar" language)), w2)).
Proof.
  intros Hidle w1 payload w2.
  destruct (generateReport_exec analysisResults language env w Hidle) as [_ Hthrow].
  subst w2 payload w1.
  repeat split.
  - intros Hobj. apply Hthrow. unfold generateFilename. step.
    cbn [heap set_objectURLs]. rewrite Hobj. reflexivity.
  - intros obj Hobj Hd. apply Hthrow. unfold generateFilename. step.
    cbn [heap set_objectURLs]. rewrite Hobj. step. rewrite Hd. reflexivity.
  - intros obj d Hobj Hd Hn. apply Hthrow. unfold generateFilename. step.
    cbn [heap set_objectURLs]. rewrite Hobj. step. rewrite Hd. step.
    rewrite Hn. reflexivity.
Qed.

(** *** Naming *)

(** X5. [generateFilename] returns a name exactly when the analysis result,
    its disease and the names of the disease are there; otherwise it throws
    the [TypeError] of the first one that is missing.  In no case does it
    change the world. *)
Theorem generateFilename_outcome
    (analysisResults : ref) (language : string) (w : World) :
  snd (run (generateFilename analysisResults language) w) = w /\
  match heap w !! analysisResults with
  | None =>
      fst (run (generateFilename analysisResults language) w) =
      Thrown (TypeError "disease")
  | Some obj =>
      match disease obj with
      | None =>
          fst (run (generateFilename analysisResults language) w) =
          Thrown (TypeError "name")
      | Some d =>
          match Disease.name d with
          | None =>
              fst (run (generateFilename analysisResults language) w) =
              Thrown (TypeError language)
          | Some _ =>
              exists file,
                fst (run (generateFilename analysisResults language) w) =
                Returned file
          end
      end
  end.
Proof.
  split; [apply generateFilename_frame |].
  destruct (heap w !! analysisResults) as [obj|] eqn:Hobj.
  - destruct (disease obj) as [d|] eqn:Hd.
    + destruct (Disease.name d) as [names|] eqn:Hn.
      * eexists. now rewrite (run_generateFilename _ _ _ _ _ _ Hobj Hd Hn).
      * unfold generateFilename. step. rewrite Hobj. step. rewrite Hd. step.
        now rewrite Hn.
    + unfold generateFilename. step. rewrite Hobj. step. now rewrite Hd.
  - unfold generateFilename. step. now rewrite Hobj.
Qed.

(** X6. The file name depends on the clock through the calendar date only:
    in two worlds that hold the same analysis result and whose clocks show
    the same year, month and day, [generateFilename] has the same outcome,
    whatever the time of day. *)
Theorem generateFilename_same_day
    (analysisResults : ref) (language : string) (w1 w2 : World) :
  heap w1 !! analysisResults = heap w2 !! analysisResults ->
  year (clock w1) = year (clock w2) ->
  month (clock w1) = month (clock w2) ->
  day (clock w1) = day (clock w2) ->
  fst (run (generateFilename analysisResults language) w1) =
  fst (run (generateFilename analysisResults language) w2).
Proof.
  intros Hheap Hy Hm Hd.
  assert (Hdate : isoDate (clock w1) = isoDate (clock w2)).
  { unfold isoDate. now rewrite Hy, Hm, Hd. }
  unfold generateFilename. step.
  rewrite !first_split_toISOString, Hdate, Hheap.
  destruct (heap w2 !! analysisResults) as [obj|]; step; [| reflexivity].
  destruct (disease obj) as [d|]; step; [| reflexivity].
  destruct (Disease.name d) as [names|]; step; [| reflexivity].
  destruct (language =? "ar"); reflexivity.
Qed.


(** *** Rendering *)

Lemma includes_hole (v : string) (ps : list piece) :
  In (PHole v) ps -> includes v (glue ps) = true.
Proof.
  induction ps as [|[s|s] ps IH]; intros H; [destruct H | |].
  - destruct H as [H | H]; [discriminate |].
    change (glue (PLit s :: ps)) with (s ++ glue ps).
    now apply includes_append_r, IH.
  - change (glue (PHole s :: ps)) with (s ++ glue ps).
    destruct H as [H | H].
    + injection H as ->. apply includes_here, startsWith_append.
    + now apply includes_append_r, IH.
Qed.

Lemma includes_textOf_hole (v : string) (t : tpl) :
  In (PHole v) (flat t []) -> includes v (textOf t) = true.
Proof.
  intros H. apply includes_hole in H. rewrite glue_flat in H.
  cbn [glue fold_right] in H. now rewrite append_nil_r in H.
Qed.

(** An analysis result that is missing or incomplete makes both rendering
    methods throw. *)
Lemma rendering_throws (r : ref) (language : string) (w : World) :
  heap w !! r ≫= parts = None ->
  (exists key,
      run (generateHTMLSections r language) w = (Thrown (TypeError key), w)) /\
  (exists key,
      run (generatePrintableHTML r language) w =
      (Thrown (TypeError key), w)).
Proof.
  intros Hnone.
  destruct (heap w !! r) as [obj|] eqn:Hobj; cbn [mbind option_bind] in Hnone.
  - assert (Hsections : exists key,
               run (generateHTMLSections r language) w =
               (Thrown (TypeError key), w)).
    { unfold parts in Hnone. unfold generateHTMLSections. step. rewrite Hobj. step.
      repeat match type of Hnone with
             | context [mbind _ ?o] =>
                 destruct o eqn:?; cbn [mbind option_bind] in Hnone; step;
                 [| eexists; reflexivity]
             end.
      discriminate. }
    destruct Hsections as [key Hkey]. split; exists key; [exact Hkey |].
    unfold generatePrintableHTML. step. rewrite Hobj. step.
    now rewrite run_bind, Hkey.
  - split; eexists.
    + unfold generateHTMLSections. step. now rewrite Hobj.
    + unfold generatePrintableHTML. step. now rewrite Hobj.
Qed.

(** X8. [generateHTMLSections] and [generatePrintableHTML] return exactly
    when the analysis result is there and complete; otherwise they throw a
    [TypeError] and return no partial document.  In no case do they change
    the world. *)
Theorem rendering_outcome
    (analysisResults : ref) (language : string) (w : World) :
  snd (run (generateHTMLSections analysisResults language) w) = w /\
  snd (run (generatePrintableHTML analysisResults language) w) = w /\
  match heap w !! analysisResults ≫= parts with
  | Some p =>
      fst (run (generateHTMLSections analysisResults language) w) =
      Returned (String.concat EmptyString
                  (map sectionBlock (sectionsOf p language))) /\
      exists html,
        fst (run (generatePrintableHTML analysisResults language) w) =
        Returned html
  | None =>
      (exists key,
          fst (run (generateHTMLSections analysisResults language) w) =
          Thrown (TypeError key)) /\
      (exists key,
          fst (run (generatePrintableHTML analysisResults language) w) =
          Thrown (TypeError key))
  end.
Proof.
  split; [apply generateHTMLSections_frame |].
  split; [apply generatePrintableHTML_frame |].
  destruct (heap w !! analysisResults ≫= parts) as [p|] eqn:Hparts.
  - destruct (heap w !! analysisResults) as [obj|] eqn:Hobj; [| discriminate].
    cbn [mbind option_bind] in Hparts.
    rewrite (run_generateHTMLSections _ _ _ _ _ Hobj Hparts),
      (run_generatePrintableHTML _ _ _ _ _ Hobj Hparts).
    split; [reflexivity | eexists; reflexivity].
  - destruct (rendering_throws analysisResults language w Hparts)
      as [[k1 H1] [k2 H2]].
    split; [exists k1; now rewrite H1 | exists k2; now rewrite H2].
Qed.

(** X9. The document of a complete analysis result contains the date the
    host printed and every field value the templates print: the overall
    confidence and, in the language asked for, the texts and numbers of the
    breed, the weight, the disease and the treatment. *)
Theorem document_shows_every_value
    (analysisResults : ref) (language : string) (w : World)
    (obj : AnalysisResult) (p : Parts) :
  heap w !! analysisResults = Some obj ->
  parts obj = Some p ->
  exists html,
    run (generatePrintableHTML analysisResults language) w =
      (Returned html, w) /\
    Forall (fun v => includes v html = true)
      (toLocaleDateString (clock w)
         (if language =? "ar" then "ar-SA" else "en-US")
       :: printed obj p language).
Proof.
  intros Hobj Hp. eexists. split.
  { apply (run_generatePrintableHTML _ _ _ _ _ Hobj Hp). }
  unfold printed, sectionValues.
  repeat apply List.Forall_cons; try apply List.Forall_nil; cbv beta;
    unfold printableTemplate, sectionsOf, sectionList, sectionBlock;
    cbn [map String.concat title content];
    match goal with
    | |- includes ?v _ = true =>
        let x := fresh "v" in
        remember v as x;
        match goal with
        | |- includes x ?s = true =>
            let t := reify Lit Hole Cat s in
            change s with (textOf t);
            apply includes_textOf_hole;
            cbn [flat consLit In];
            repeat first [left; reflexivity | right]
        end
    end.
Qed.


(** *** Printing *)

Lemma alter_last {A} (f : A -> A) (l : list A) (x : A) :
  alter f (List.length l) (l ++ [x])%list = (l ++ [f x])%list.
Proof.
  induction l as [|y l IH]; [reflexivity |].
  cbn [List.length app]. change (alter f (S ?n) (?a :: ?k)) with (a :: alter f n k).
  now rewrite IH.
Qed.

(** X11. With popups allowed and a complete analysis result,
    [printHTMLReport] returns after opening exactly one new window, the
    last one, and leaving the others as they were: the new window holds the
    document [generatePrintableHTML] returns, its document is closed, and
    no print dialog is open yet; the dialog opens once when the window's
    load event fires. *)
Theorem printHTMLReport_opens_window
    (analysisResults : ref) (language : string) (w : World)
    (obj : AnalysisResult) (p : Parts) :
  popupsBlocked w = false ->
  heap w !! analysisResults = Some obj ->
  parts obj = Some p ->
  exists html win,
    run (generatePrintableHTML analysisResults language) w =
      (Returned html, w) /\
    run (printHTMLReport analysisResults language) w =
      (Returned tt, set_windows (windows w ++ [win])%list w) /\
    document win = html /\
    documentClosed win = true /\
    printDialogs win = 0 /\
    printDialogs (fireLoad win) = 1.
Proof.
  intros Hallowed Hobj Hp.
  pose proof (run_generatePrintableHTML _ language _ _ _ Hobj Hp)
    as Hhtml.
  eexists. eexists. split; [exact Hhtml |]. split.
  { unfold printHTMLReport. step. rewrite Hallowed.
    rewrite run_bind.
    assert (Hsame : heap (set_windows (windows w ++ [blankWindow])%list w) !! analysisResults
                    = Some obj) by exact Hobj.
    rewrite (run_generatePrintableHTML _ language _ _ _ Hsame Hp).
    step. cbn [windows set_windows clock].
    rewrite !alter_last. reflexivity. }
  repeat split.
Qed.

(** X12. With popups allowed and an analysis result that is missing or
    incomplete, [printHTMLReport] throws the [TypeError] of the rendering,
    but only after it has opened the window: a blank window stays behind. *)
Theorem printHTMLReport_leaves_blank_window
    (analysisResults : ref) (language : string) (w : World) :
  popupsBlocked w = false ->
  heap w !! analysisResults ≫= parts = None ->
  exists key,
    run (printHTMLReport analysisResults language) w =
    (Thrown (TypeError key), set_windows (windows w ++ [blankWindow])%list w).
Proof.
  intros Hallowed Hincomplete.
  set (w' := set_windows (windows w ++ [blankWindow])%list w).
  destruct (rendering_throws analysisResults language w' Hincomplete)
    as [_ [key Hkey]].
  exists key. unfold printHTMLReport. step. rewrite Hallowed.
  rewrite run_bind. fold w'. now rewrite Hkey.
Qed.

(** *** Downloading *)

Lemma removeFirst_fresh (n : nat) (l : list nat) :
  Forall (fun x => x < n) l -> removeFirst n l = l.
Proof.
  induction 1 as [|x l Hx _ IH]; [reflexivity |].
  cbn [removeFirst]. destruct (Nat.eqb_spec n x); [lia | now rewrite IH].
Qed.

Lemma removeFirst_last (n : nat) (l : list nat) :
  Forall (fun x => x < n) l -> removeFirst n (l ++ [n])%list = l.
Proof.
  induction 1 as [|x l Hx _ IH].
  - cbn [app removeFirst]. now rewrite Nat.eqb_refl.
  - cbn [app removeFirst]. destruct (Nat.eqb_spec n x); [lia | now rewrite IH].
Qed.

Lemma existsb_last (n : nat) (l : list nat) :
  existsb (Nat.eqb n) (l ++ [n])%list = true.
Proof.
  rewrite existsb_app. cbn [existsb]. rewrite Nat.eqb_refl.
  now rewrite orb_true_r.
Qed.

Lemma delete_last {A} (l : list A) (x : A) :
  delete (List.length l) (l ++ [x])%list = l.
Proof.
  induction l as [|y l IH]; [reflexivity |].
  cbn [List.length app]. change (delete (S ?n) (?a :: ?k)) with (a :: delete n k).
  now rewrite IH.
Qed.

(** What [downloadPDF] makes of a well-formed page. *)
Lemma downloadPDF_run (pdfData : Artifact) (p : Page) :
  wellFormed p ->
  downloadPDF pdfData p =
  Some {| host := host p;
          nodes := (nodes p ++ [ {| href := Some (url pdfData);
                                    download := Some (filename pdfData) |} ])%list;
          body := body p;
          downloads :=
            (downloads p ++ [ {| source := url pdfData;
                                 suggestedName := Some (filename pdfData);
                                 received := resolve p (url pdfData) |} ])%list;
          timeouts := (timeouts p ++ [(100, RevokeObjectURL (url pdfData))])%list;
          revoked := revoked p |}.
Proof.
  intros Hp. unfold wellFormed in Hp.
  unfold downloadPDF, createElement, setHref, setDownload, appendChild, click,
    removeChild, setTimeout.
  cbn [nodes body downloads timeouts revoked host set_nodes set_body
         set_downloads set_timeouts].
  rewrite !alter_last. cbn [href download newAnchor].
  rewrite (removeFirst_fresh _ _ Hp).
  rewrite list_lookup_middle by reflexivity.
  cbn [nodes body downloads timeouts revoked host set_nodes set_body
         set_downloads set_timeouts].
  rewrite existsb_last. cbn [mbind option_bind].
  cbn [nodes body downloads timeouts revoked host set_nodes set_body
         set_downloads set_timeouts].
  now rewrite (removeFirst_last _ _ Hp).
Qed.

(** X13. On a page whose body holds only elements that were created,
    [downloadPDF] never fails with [NotFoundError] and leaves the children of
    the body as they were: the link is gone again.  It makes the host start
    exactly one download, from the URL of the artifact and under its file
    name, and schedules exactly one timeout, after 100 ms, that revokes that
    URL; nothing is revoked yet. *)
Theorem downloadPDF_effect (pdfData : Artifact) (p : Page) :
  wellFormed p ->
  exists p',
    downloadPDF pdfData p = Some p' /\
    wellFormed p' /\
    body p' = body p /\
    host p' = host p /\
    revoked p' = revoked p /\
    downloads p' =
      (downloads p ++ [ {| source := url pdfData;
                           suggestedName := Some (filename pdfData);
                           received := resolve p (url pdfData) |} ])%list /\
    timeouts p' = (timeouts p ++ [(100, RevokeObjectURL (url pdfData))])%list.
Proof.
  intros Hp. eexists. split; [apply (downloadPDF_run _ _ Hp) |].
  split; [| repeat split].
  unfold wellFormed in *. cbn [body nodes].
  rewrite length_app. cbn [List.length].
  eapply Forall_impl; [exact Hp |]. cbv beta. intros x Hx. lia.
Qed.

(** X14. Once the timeout [downloadPDF] scheduled has fired, the URL of the
    artifact gives nothing any more, the other URLs give what they gave,
    and no timeout of the call is left.  The download cannot be repeated
    then: a second [downloadPDF] of the same artifact starts a download that
    receives nothing, whereas one made before the timeout fires receives
    what the first one did. *)
Theorem downloadPDF_revokes (pdfData : Artifact) (p p1 : Page) :
  wellFormed p ->
  downloadPDF pdfData p = Some p1 ->
  let p2 := fireTimeout (List.length (timeouts p)) p1 in
  resolve p2 (url pdfData) = None /\
  (forall u, u <> url pdfData -> resolve p2 u = resolve p u) /\
  timeouts p2 = timeouts p /\
  (exists p3,
      downloadPDF pdfData p2 = Some p3 /\
      last (downloads p3) =
      Some {| source := url pdfData; suggestedName := Some (filename pdfData);
              received := None |}) /\
  (exists p3,
      downloadPDF pdfData p1 = Some p3 /\
      last (downloads p3) =
      Some {| source := url pdfData; suggestedName := Some (filename pdfData);
              received := resolve p (url pdfData) |}).
Proof.
  intros Hp Hrun p2.
  rewrite (downloadPDF_run _ _ Hp) in Hrun. injection Hrun as <-.
  assert (Hp2 : p2 =
                {| host := host p;
                   nodes := (nodes p ++ [ {| href := Some (url pdfData);
                                             download := Some (filename pdfData) |} ])%list;
                   body := body p;
                   downloads :=
                     (downloads p ++ [ {| source := url pdfData;
                                          suggestedName := Some (filename pdfData);
                                          received := resolve p (url pdfData) |} ])%list;
                   timeouts := timeouts p;
                   revoked := url pdfData :: revoked p |}).
  { subst p2. unfold fireTimeout. cbn [timeouts].
    rewrite list_lookup_middle by reflexivity.
    cbn [set_revoked set_timeouts host nodes body downloads timeouts revoked].
    now rewrite delete_last. }
  assert (Hwf : forall q, nodes q = (nodes p ++ [ {| href := Some (url pdfData);
                                      download := Some (filename pdfData) |} ])%list ->
                          body q = body p -> wellFormed q).
  { intros q Hn Hb. unfold wellFormed in *. rewrite Hn, Hb, length_app.
    cbn [List.length]. eapply Forall_impl; [exact Hp |].
    cbv beta. intros x Hx. lia. }
  split; [| split; [| split; [| split]]].
  - rewrite Hp2. unfold resolve. cbn [revoked existsb].
    now rewrite Nat.eqb_refl.
  - intros u Hu. rewrite Hp2. unfold resolve. cbn [revoked existsb host].
    apply Nat.eqb_neq in Hu. now rewrite Hu.
  - now rewrite Hp2.
  - eexists. split.
    + apply downloadPDF_run. apply Hwf; rewrite Hp2; reflexivity.
    + cbn [downloads]. rewrite last_snoc. do 2 f_equal.
      rewrite Hp2. unfold resolve. cbn [revoked existsb].
      now rewrite Nat.eqb_refl.
  - eexists. split.
    + apply downloadPDF_run. apply Hwf; reflexivity.
    + cbn [downloads]. rewrite last_snoc. reflexivity.
Qed.

(** An artifact that [generateReport] returned is registered in the world
    the call ended in. *)
Lemma generateReport_returns
    (r : ref) (language : option string) (env : list (World -> World))
    (w w2 : World) (a : Artifact) :
  exec (generateReport r language) env w = (Returned a, w2) ->
  blob a = {| blobParts := [generatePDFContent r (default "ar" language)];
              type := "application/pdf" |} /\
  objectURLs w2 !! url a = Some (blob a).
Proof.
  intros Hexec. destruct (isGenerating w) eqn:Hflag.
  - unfold generateReport in Hexec. revert Hexec. step. rewrite Hflag. discriminate.
  - destruct (generateReport_exec r language env w Hflag) as [Hret Hthrow].
    pose proof (generateFilename_frame r (default "ar" language)
                  (set_objectURLs
                     (objectURLs (atResume env w) ++
                      [ {| blobParts := [generatePDFContent r (default "ar" language)];
                           type := "application/pdf" |} ])%list
                     (atResume env w))) as [Hsettled _].
    destruct (fst (run (generateFilename r (default "ar" language)) _))
      as [name|e|ms k] eqn:Hname.
    + rewrite (Hret name eq_refl) in Hexec. injection Hexec as <- <-.
      split; [reflexivity |].
      cbn [url blob objectURLs set_isGenerating set_objectURLs].
      apply list_lookup_middle. reflexivity.
    + rewrite (Hthrow e eq_refl) in Hexec. discriminate.
    + discriminate.
Qed.

(** X15. An artifact that [generateReport] has returned can be downloaded:
    on a well-formed page of the world the call ended in, on which the URL
    of the artifact has not been revoked, [downloadPDF] starts a download
    that is named as [generateFilename] named the artifact and receives the
    PDF text of the language as a blob of type [application/pdf]. *)
Theorem generated_report_downloads
    (analysisResults : ref) (language : option string)
    (env : list (World -> World)) (w w2 : World) (a : Artifact) (p : Page) :
  exec (generateReport analysisResults language) env w = (Returned a, w2) ->
  host p = w2 ->
  wellFormed p ->
  ~ In (url a) (revoked p) ->
  exists p',
    downloadPDF a p = Some p' /\
    last (downloads p') =
    Some {| source := url a;
            suggestedName := Some (filename a);
            received :=
              Some {| blobParts :=
                        [generatePDFContent analysisResults (default "ar" language)];
                      type := "application/pdf" |} |}.
Proof.
  intros Hexec Hhost Hp Hlive.
  destruct (generateReport_returns _ _ _ _ _ _ Hexec) as [Hblob Hurl].
  eexists. split; [apply (downloadPDF_run _ _ Hp) |].
  cbn [downloads]. rewrite last_snoc. do 2 f_equal.
  unfold resolve.
  assert (Hnot : existsb (Nat.eqb (url a)) (revoked p) = false).
  { apply not_true_is_false. intros Hex. apply Hlive.
    apply existsb_exists in Hex as (x & Hin & Heq).
    apply Nat.eqb_eq in Heq. now subst. }
  now rewrite Hnot, Hhost, Hurl, Hblob.
Qed.

(** *** Generating again *)

(** The world a call that returned ends in. *)
Lemma generateReport_returned
    (r : ref) (language : option string) (env : list (World -> World))
    (w w2 : World) (a : Artifact) :
  exec (generateReport r language) env w = (Returned a, w2) ->
  url a = List.length (objectURLs (atResume env w)) /\
  objectURLs w2 = (objectURLs (atResume env w) ++ [blob a])%list.
Proof.
  intros Hexec. destruct (isGenerating w) eqn:Hflag.
  - unfold generateReport in Hexec. revert Hexec. step. rewrite Hflag. discriminate.
  - destruct (generateReport_exec r language env w Hflag) as [Hret Hthrow].
    pose proof (generateFilename_frame r (default "ar" language)
                  (set_objectURLs
                     (objectURLs (atResume env w) ++
                      [ {| blobParts := [generatePDFContent r (default "ar" language)];
                           type := "application/pdf" |} ])%list
                     (atResume env w))) as [Hsettled _].
    destruct (fst (run (generateFilename r (default "ar" language)) _))
      as [name|e|ms k] eqn:Hname.
    + rewrite (Hret name eq_refl) in Hexec. injection Hexec as <- <-.
      split; reflexivity.
    + rewrite (Hthrow e eq_refl) in Hexec. discriminate.
    + discriminate.
Qed.

(** X16. The generator never revokes what it registered: when two calls
    have returned one after the other and the host left the object URLs
    alone while the second one waited, the second artifact has the next
    handle, and in the world the second call ended in both handles still
    give the blobs of their artifacts. *)
Theorem successive_reports_coexist
    (r1 r2 : ref) (l1 l2 : option string) (env1 env2 : list (World -> World))
    (w w2 w3 : World) (a1 a2 : Artifact) :
  exec (generateReport r1 l1) env1 w = (Returned a1, w2) ->
  exec (generateReport r2 l2) env2 w2 = (Returned a2, w3) ->
  objectURLs (atResume env2 w2) = objectURLs w2 ->
  url a2 = S (url a1) /\
  objectURLs w3 !! url a1 = Some (blob a1) /\
  objectURLs w3 !! url a2 = Some (blob a2).
Proof.
  intros H1 H2 Hhost.
  destruct (generateReport_returned _ _ _ _ _ _ H1) as [Hu1 Hw2].
  destruct (generateReport_returned _ _ _ _ _ _ H2) as [Hu2 Hw3].
  rewrite Hhost in Hu2, Hw3. rewrite Hw2 in Hu2, Hw3.
  rewrite List.length_app in Hu2. cbn [List.length] in Hu2.
  rewrite Hw3, Hu2, Hu1. split; [lia |]. split.
  - rewrite <- List.app_assoc. apply list_lookup_middle. reflexivity.
  - apply list_lookup_middle. rewrite List.length_app. cbn [List.length]. lia.
Qed.

End PDFGenerator.

(** A session: a call is accepted, a second one is refused while the first
    is pending, the timer fires, and the next call is accepted. *)
Example generator_session :
  let s1 := snd (react (Calls 0 None) (fresh sampleWorld)) in
  let s2 := snd (react TimerFires s1) in
  fst (react (Calls 0 None) (fresh sampleWorld)) = None /\
  fst (react (Calls 1 (Some "en")) s1) = Some (Thrown alreadyInProgress) /\
  isGenerating (world s1) = true /\
  isGenerating (world s2) = false /\
  fst (react (Calls 1 (Some "en")) s2) = None.
Proof. repeat split; vm_compute; reflexivity. Qed.

Example generateReport_succeeds :
  exists a w,
    exec (generateReport 0 (Some "en")) [tick] sampleWorld = (Returned a, w) /\
    filename a = "diagnosis-report-Newcastle Disease-2026-03-07.pdf" /\
    isGenerating w = false.
Proof. do 2 eexists. split; [vm_compute; reflexivity |]. split; reflexivity. Qed.

Example generateReport_fails :
  exists w,
    exec (generateReport 2 None) [tick] sampleWorld = (Thrown (TypeError "name"), w) /\
    isGenerating w = false.
Proof. eexists. split; [vm_compute; reflexivity | reflexivity]. Qed.

Lemma generateReport_single_flight_witness :
  isGenerating busyWorld = true /\
  isGenerating sampleWorld = false /\
  run (generateReport 0 None) busyWorld = (Thrown alreadyInProgress, busyWorld) /\
  exists k,
    run (generateReport 0 None) sampleWorld =
      (Suspended 2000 k, set_isGenerating true sampleWorld) /\
    isGenerating (snd (run k (tick (set_isGenerating true sampleWorld)))) = false.
Proof.
  split; [reflexivity |]. split; [reflexivity |].
  destruct (generateReport_single_flight 0 None busyWorld) as (Hbusy & _ & _).
  destruct (generateReport_single_flight 0 None sampleWorld) as (_ & Hidle & _).
  split; [apply Hbusy; reflexivity |].
  destruct (Hidle eq_refl) as (k & Hrun & _ & Hk).
  exists k. split; [exact Hrun |]. apply Hk.
Defined.

Lemma four_sections_in_order_witness :
  heap sampleWorld !! 0 = Some sampleResult /\
  parts sampleResult = Some sampleParts /\
  Forall (fun v => occurrences sectionOpen v = 0)
    (numericDate (clock sampleWorld) "en-US" :: printed sampleResult sampleParts "en") /\
  exists html,
    run (generatePrintableHTML numericDate 0 "en") sampleWorld =
      (Returned html, sampleWorld) /\
    occurrences sectionOpen html = 4.
Proof.
  assert (Hobj : heap sampleWorld !! 0 = Some sampleResult) by reflexivity.
  assert (Hp : parts sampleResult = Some sampleParts) by reflexivity.
  assert (Hclean : Forall (fun v => occurrences sectionOpen v = 0)
                     (numericDate (clock sampleWorld) "en-US"
                      :: printed sampleResult sampleParts "en")).
  { repeat constructor. }
  split; [exact Hobj |]. split; [exact Hp |]. split; [exact Hclean |].
  destruct (four_sections_in_order numericDate 0 "en" sampleWorld sampleResult
              sampleParts (or_intror eq_refl) Hobj Hp)
    as (html & Hrun & _ & _ & Hcount).
  exists html. split; [exact Hrun | exact (Hcount Hclean)].
Defined.

(** C2, as stated, fails: the document of a result whose breed name is the
    opening tag of a section has that tag five times. *)
Lemma four_sections_counterexample :
  parts taggedResult <> None /\
  exists html,
    run (generatePrintableHTML numericDate 1 "en") sampleWorld =
      (Returned html, sampleWorld) /\
    occurrences sectionOpen html = 5 /\
    occurrences sectionOpen html <> 4.
Proof.
  split; [discriminate |].
  eexists. split; [vm_compute; reflexivity |].
  split; [vm_compute; reflexivity | vm_compute; discriminate].
Qed.

Lemma generateFilename_contents_witness :
  heap sampleWorld !! 0 = Some sampleResult /\
  disease sampleResult = Some (diseaseObj sampleParts) /\
  Disease.name (diseaseObj sampleParts) = Some (diseaseName sampleParts) /\
  (0 <= year (clock sampleWorld) <= 9999)%Z /\
  run (generateFilename 0 "en") sampleWorld =
  (Returned "diagnosis-report-Newcastle Disease-2026-03-07.pdf", sampleWorld).
Proof.
  assert (Hobj : heap sampleWorld !! 0 = Some sampleResult) by reflexivity.
  assert (Hyear : (0 <= year (clock sampleWorld) <= 9999)%Z) by (simpl; lia).
  split; [exact Hobj |]. split; [reflexivity |]. split; [reflexivity |].
  split; [exact Hyear |].
  destruct (generateFilename_contents 0 "en" sampleWorld sampleResult
              (diseaseObj sampleParts) (diseaseName sampleParts)
              Hobj eq_refl eq_refl Hyear)
    as (file & Hrun & Hfile & _).
  rewrite Hrun, Hfile. vm_compute. reflexivity.
Defined.

Lemma document_direction_witness :
  heap sampleWorld !! 0 = Some sampleResult /\
  parts sampleResult = Some sampleParts /\
  exists html,
    run (generatePrintableHTML numericDate 0 "ar") sampleWorld =
      (Returned html, sampleWorld) /\
    startsWith
      (
      "
            <!DOCTYPE html>
            <html dir=" ++
      q "rtl" ++
      " lang=" ++
      q "ar" ++
      ">")
      html = true.
Proof.
  assert (Hobj : heap sampleWorld !! 0 = Some sampleResult) by reflexivity.
  assert (Hp : parts sampleResult = Some sampleParts) by reflexivity.
  split; [exact Hobj |]. split; [exact Hp |].
  destruct (document_direction numericDate 0 "ar" sampleWorld sampleResult
              sampleParts Hobj Hp)
    as (direction & textAlign & html & rest & Hrun & Hhtml & Har & _).
  destruct (Har eq_refl) as [Hd Ht].
  exists html. split; [exact Hrun |].
  rewrite Hhtml, Hd, Ht. vm_compute. reflexivity.
Defined.

Lemma generatePrintableHTML_pure_witness :
  clock sampleWorld = clock busyWorld /\
  heap sampleWorld !! 0 = heap busyWorld !! 0 /\
  isGenerating sampleWorld <> isGenerating busyWorld /\
  fst (run (generatePrintableHTML numericDate 0 "en") sampleWorld) =
  fst (run (generatePrintableHTML numericDate 0 "en") busyWorld) /\
  snd (run (generatePrintableHTML numericDate 0 "en") busyWorld) = busyWorld.
Proof.
  assert (Hc : clock sampleWorld = clock busyWorld) by reflexivity.
  assert (Hh : heap sampleWorld !! 0 = heap busyWorld !! 0) by reflexivity.
  destruct (generatePrintableHTML_pure numericDate 0 "en" sampleWorld busyWorld Hc Hh)
    as (Hsame & _ & _ & Hframe).
  split; [exact Hc |]. split; [exact Hh |]. split; [discriminate |].
  split; [exact Hsame | exact Hframe].
Defined.

Lemma confidence_87_witness :
  heap sampleWorld !! 0 = Some sampleResult /\
  parts sampleResult = Some sampleParts /\
  overallConfidence sampleResult = number 87 /\
  exists html date sections,
    run (generatePrintableHTML numericDate 0 "en") sampleWorld =
      (Returned html, sampleWorld) /\
    html = printableTemplate "en" "ltr" "left" date "87" sections /\
    let language := "en" in
    includes
      (
      "<div class=" ++
      q "confidence" ++
      ">
                    <h3>" ++
      (if language =? "ar" then "مؤشر الثقة العام" else "Overall Confidence Indicator") ++
      "</h3>
                    <h2>87%</h2>
                </div>")
      html = true.
Proof.
  assert (Hobj : heap sampleWorld !! 0 = Some sampleResult) by reflexivity.
  assert (Hp : parts sampleResult = Some sampleParts) by reflexivity.
  split; [exact Hobj |]. split; [exact Hp |]. split; [reflexivity |].
  exact (confidence_87 numericDate 0 "en" sampleWorld sampleResult sampleParts
           (or_intror eq_refl) Hobj Hp eq_refl).
Defined.

(** Without a popup blocker the report is written to a new window, whose
    load event opens the print dialog. *)
Example printHTMLReport_prints :
  exists html win,
    run (generatePrintableHTML numericDate 0 "en") sampleWorld =
      (Returned html, sampleWorld) /\
    run (printHTMLReport numericDate 0 "en") sampleWorld =
      (Returned tt, set_windows [win] sampleWorld) /\
    document win = html /\
    documentClosed win = true /\
    printDialogs win = 0 /\
    printDialogs (fireLoad win) = 1.
Proof.
  do 2 eexists. split; [vm_compute; reflexivity |].
  split; [vm_compute; reflexivity |]. repeat split.
Qed.

Lemma printHTMLReport_blocked_witness :
  popupsBlocked blockedWorld = true /\
  heap blockedWorld !! 0 = Some sampleResult /\
  parts sampleResult = Some sampleParts /\
  run (printHTMLReport numericDate 0 "en") blockedWorld =
  (Thrown (TypeError "document"), blockedWorld).
Proof.
  assert (Hobj : heap blockedWorld !! 0 = Some sampleResult) by reflexivity.
  assert (Hp : parts sampleResult = Some sampleParts) by reflexivity.
  split; [reflexivity |]. split; [exact Hobj |]. split; [exact Hp |].
  destruct (printHTMLReport_blocked numericDate 0 "en" blockedWorld eq_refl)
    as (_ & Hthrow).
  exact (Hthrow sampleResult sampleParts Hobj Hp).
Defined.

(** C8, as stated, fails: with popups blocked the call does not return, it
    throws to its caller. *)
Lemma printHTMLReport_not_silent :
  popupsBlocked blockedWorld = true /\
  fst (run (printHTMLReport numericDate 0 "en") blockedWorld) =
    Thrown (TypeError "document") /\
  ~ exists u, fst (run (printHTMLReport numericDate 0 "en") blockedWorld) = Returned u.
Proof.
  split; [reflexivity |].
  assert (H : fst (run (printHTMLReport numericDate 0 "en") blockedWorld) =
              Thrown (TypeError "document")) by (vm_compute; reflexivity).
  split; [exact H |]. intros [u Hu]. rewrite H in Hu. discriminate.
Qed.

Lemma analysis_result_not_mutated_witness :
  Forall keepsHeap [tick] /\
  heap (snd (exec (generateReport 0 None) [tick] sampleWorld)) = heap sampleWorld /\
  heap (snd (exec (printHTMLReport numericDate 0 "en") [tick] sampleWorld)) =
  heap sampleWorld.
Proof.
  assert (Henv : Forall keepsHeap [tick]).
  { constructor; [intros w; reflexivity | constructor]. }
  destruct (analysis_result_not_mutated numericDate 0 "en" None [tick] sampleWorld Henv)
    as (Hreport & _ & _ & Hprint).
  split; [exact Henv |]. split; [exact Hreport | exact Hprint].
Defined.

Lemma payload_depends_only_on_language_witness :
  exists a1 a2,
    fst (exec (generateReport 0 (Some "en")) [tick] sampleWorld) = Returned a1 /\
    fst (exec (generateReport 1 (Some "en")) [] sampleWorld) = Returned a2 /\
    url a1 = 0 /\
    blob a1 = blob a2.
Proof.
  eexists. eexists.
  split; [vm_compute; reflexivity |]. split; [vm_compute; reflexivity |].
  split; [reflexivity |].
  destruct payload_depends_only_on_language as (_ & Hsame).
  refine (proj1 (Hsame 0 1 (Some "en") [tick] [] sampleWorld sampleWorld _ _ _ _)).
  - vm_compute. reflexivity.
  - vm_compute. reflexivity.
Defined.

(** ** The further properties on the sample data *)

Lemma single_flight_on_every_trace_witness :
  Forall keepsFlag [Calls 0 None; HostActs tick; Calls 1 (Some "en")] /\
  let s := play [Calls 0 None; HostActs tick; Calls 1 (Some "en")] (fresh busyWorld) in
  pending s <> None /\
  react (Calls 2 None) s = (Some (Thrown alreadyInProgress), s).
Proof.
  assert (Hes : forall es, es = [Calls 0 None; HostActs tick; Calls 1 (Some "en")] ->
                           Forall keepsFlag es).
  { intros es ->. repeat constructor. }
  split; [repeat constructor |]. intros s.
  destruct (single_flight_on_every_trace busyWorld _ (Hes _ eq_refl)) as [_ Hcall].
  fold s in Hcall. specialize (Hcall 2 None).
  assert (Hpending : pending s <> None) by (vm_compute; discriminate).
  split; [exact Hpending |].
  destruct (pending s); [exact Hcall | now destruct Hpending].
Defined.

Lemma generateReport_effect_witness :
  isGenerating sampleWorld = false /\
  objectURLs (snd (exec (generateReport 2 None) [tick] sampleWorld)) =
  [ {| blobParts := [generatePDFContent 2 "ar"]; type := "application/pdf" |} ] /\
  isGenerating (snd (exec (generateReport 2 None) [tick] sampleWorld)) = false.
Proof.
  split; [reflexivity |].
  destruct (generateReport_effect 2 None [tick] sampleWorld eq_refl) as [_ Hworld].
  rewrite Hworld. split; reflexivity.
Defined.

Lemma generateReport_artifact_witness :
  isGenerating sampleWorld = false /\
  heap (atResume [tick] sampleWorld) !! 0 = Some sampleResult /\
  exists a w2,
    exec (generateReport 0 (Some "en")) [tick] sampleWorld = (Returned a, w2) /\
    objectURLs w2 !! url a = Some (blob a) /\
    filename a = "diagnosis-report-Newcastle Disease-2026-03-07.pdf".
Proof.
  assert (Hobj : heap (atResume [tick] sampleWorld) !! 0 = Some sampleResult)
    by reflexivity.
  split; [reflexivity |]. split; [exact Hobj |].
  destruct (generateReport_artifact 0 (Some "en") [tick] sampleWorld sampleResult
              (diseaseObj sampleParts) (diseaseName sampleParts)
              eq_refl Hobj eq_refl eq_refl)
    as (a & w2 & Hexec & _ & Hurl & Hname).
  exists a, w2. split; [exact Hexec |]. split; [exact Hurl |].
  rewrite Hname. vm_compute. reflexivity.
Defined.

Lemma generateReport_failure_witness :
  isGenerating sampleWorld = false /\
  heap (atResume [tick] sampleWorld) !! 2 = Some incompleteResult /\
  disease incompleteResult = None /\
  fst (exec (generateReport 2 None) [tick] sampleWorld) = Thrown (TypeError "name").
Proof.
  assert (Hobj : heap (atResume [tick] sampleWorld) !! 2 = Some incompleteResult)
    by reflexivity.
  split; [reflexivity |]. split; [exact Hobj |]. split; [reflexivity |].
  destruct (generateReport_failure 2 None [tick] sampleWorld eq_refl)
    as (_ & Hdisease & _).
  now rewrite (Hdisease incompleteResult Hobj eq_refl).
Defined.

Lemma generateFilename_same_day_witness :
  heap sampleWorld !! 0 = heap (tick sampleWorld) !! 0 /\
  clock sampleWorld <> clock (tick sampleWorld) /\
  fst (run (generateFilename 0 "ar") sampleWorld) =
  fst (run (generateFilename 0 "ar") (tick sampleWorld)).
Proof.
  split; [reflexivity |]. split; [discriminate |].
  apply generateFilename_same_day; reflexivity.
Defined.


Lemma document_shows_every_value_witness :
  heap sampleWorld !! 0 = Some sampleResult /\
  parts sampleResult = Some sampleParts /\
  exists html,
    run (generatePrintableHTML numericDate 0 "en") sampleWorld =
      (Returned html, sampleWorld) /\
    includes "03/07/2026" html = true /\
    includes "Newcastle Disease" html = true /\
    includes "Isolate the birds" html = true.
Proof.
  assert (Hobj : heap sampleWorld !! 0 = Some sampleResult) by reflexivity.
  assert (Hp : parts sampleResult = Some sampleParts) by reflexivity.
  split; [exact Hobj |]. split; [exact Hp |].
  destruct (document_shows_every_value numericDate 0 "en" sampleWorld sampleResult
              sampleParts Hobj Hp) as (html & Hrun & Hall).
  exists html. split; [exact Hrun |].
  rewrite Forall_forall in Hall.
  repeat split; apply Hall; vm_compute;
    repeat (first [left; reflexivity | right]).
Defined.


Lemma printHTMLReport_opens_window_witness :
  popupsBlocked busyWorld = false /\
  heap busyWorld !! 0 = Some sampleResult /\
  parts sampleResult = Some sampleParts /\
  exists html win,
    run (printHTMLReport numericDate 0 "ar") busyWorld =
      (Returned tt, set_windows [blankWindow; win] busyWorld) /\
    document win = html /\
    printDialogs (fireLoad win) = 1.
Proof.
  assert (Hobj : heap busyWorld !! 0 = Some sampleResult) by reflexivity.
  assert (Hp : parts sampleResult = Some sampleParts) by reflexivity.
  split; [reflexivity |]. split; [exact Hobj |]. split; [exact Hp |].
  destruct (printHTMLReport_opens_window numericDate 0 "ar" busyWorld sampleResult
              sampleParts eq_refl Hobj Hp)
    as (html & win & _ & Hrun & Hdoc & _ & _ & Hprint).
  exists html, win. split; [exact Hrun |]. split; [exact Hdoc | exact Hprint].
Defined.

Lemma printHTMLReport_leaves_blank_window_witness :
  popupsBlocked sampleWorld = false /\
  heap sampleWorld !! 2 ≫= parts = None /\
  run (printHTMLReport numericDate 2 "en") sampleWorld =
  (Thrown (TypeError "name"), set_windows [blankWindow] sampleWorld).
Proof.
  assert (Hnone : heap sampleWorld !! 2 ≫= parts = None) by reflexivity.
  split; [reflexivity |]. split; [exact Hnone |].
  destruct (printHTMLReport_leaves_blank_window numericDate 2 "en" sampleWorld
              eq_refl Hnone) as [key Hrun].
  rewrite Hrun. f_equal.
  assert (Hkey : fst (run (printHTMLReport numericDate 2 "en") sampleWorld) =
                 Thrown (TypeError "name")) by (vm_compute; reflexivity).
  rewrite Hrun in Hkey. exact Hkey.
Defined.

Lemma downloadPDF_effect_witness :
  wellFormed (pageOf busyWorld) /\
  exists p',
    downloadPDF sampleArtifact (pageOf busyWorld) = Some p' /\
    body p' = [] /\
    downloads p' =
      [ {| source := 0; suggestedName := Some "report.pdf";
           received := Some {| blobParts := []; type := "text/plain" |} |} ] /\
    timeouts p' = [(100, RevokeObjectURL 0)].
Proof.
  assert (Hp : wellFormed (pageOf busyWorld)) by constructor.
  split; [exact Hp |].
  destruct (downloadPDF_effect sampleArtifact (pageOf busyWorld) Hp)
    as (p' & Hrun & _ & Hbody & _ & _ & Hdownloads & Htimeouts).
  exists p'. split; [exact Hrun |].
  split; [exact Hbody |]. split; [exact Hdownloads | exact Htimeouts].
Defined.

Lemma downloadPDF_revokes_witness :
  wellFormed (pageOf busyWorld) /\
  exists p1,
    downloadPDF sampleArtifact (pageOf busyWorld) = Some p1 /\
    resolve (pageOf busyWorld) 0 = Some (blob sampleArtifact) /\
    resolve (fireTimeout 0 p1) 0 = None.
Proof.
  assert (Hp : wellFormed (pageOf busyWorld)) by constructor.
  split; [exact Hp |].
  destruct (downloadPDF sampleArtifact (pageOf busyWorld)) as [p1|] eqn:Hrun;
    [| discriminate].
  exists p1. split; [reflexivity |]. split; [reflexivity |].
  exact (proj1 (downloadPDF_revokes sampleArtifact (pageOf busyWorld) p1 Hp Hrun)).
Defined.

Lemma generated_report_downloads_witness :
  exists a w2 p',
    exec (generateReport 0 (Some "en")) [tick] sampleWorld = (Returned a, w2) /\
    wellFormed (pageOf w2) /\
    ~ In (url a) (revoked (pageOf w2)) /\
    downloadPDF a (pageOf w2) = Some p' /\
    last (downloads p') =
    Some {| source := 0;
            suggestedName := Some "diagnosis-report-Newcastle Disease-2026-03-07.pdf";
            received := Some {| blobParts := [generatePDFContent 0 "en"];
                                type := "application/pdf" |} |}.
Proof.
  destruct (exec (generateReport 0 (Some "en")) [tick] sampleWorld) as [s w2] eqn:Hexec.
  destruct s as [a| |]; try (vm_compute in Hexec; discriminate).
  assert (Hp : wellFormed (pageOf w2)) by constructor.
  assert (Hlive : ~ In (url a) (revoked (pageOf w2))) by (intros []).
  destruct (generated_report_downloads 0 (Some "en") [tick] sampleWorld w2 a
              (pageOf w2) Hexec eq_refl Hp Hlive) as (p' & Hrun & Hlast).
  exists a, w2, p'. split; [reflexivity |]. split; [exact Hp |].
  split; [exact Hlive |]. split; [exact Hrun |].
  rewrite Hlast. vm_compute in Hexec. injection Hexec as <- _. reflexivity.
Defined.

Lemma successive_reports_coexist_witness :
  exists a1 a2 w2 w3,
    exec (generateReport 0 None) [tick] sampleWorld = (Returned a1, w2) /\
    exec (generateReport 1 (Some "en")) [tick] w2 = (Returned a2, w3) /\
    objectURLs (atResume [tick] w2) = objectURLs w2 /\
    url a1 = 0 /\ url a2 = 1 /\
    objectURLs w3 !! 0 = Some (blob a1) /\
    objectURLs w3 !! 1 = Some (blob a2).
Proof.
  destruct (exec (generateReport 0 None) [tick] sampleWorld) as [s1 w2] eqn:H1.
  destruct s1 as [a1| |]; try (vm_compute in H1; discriminate).
  destruct (exec (generateReport 1 (Some "en")) [tick] w2) as [s2 w3] eqn:H2.
  assert (Hw2 : w2 = snd (exec (generateReport 0 None) [tick] sampleWorld))
    by now rewrite H1.
  assert (Hu1 : url a1 = 0).
  { assert (H : fst (exec (generateReport 0 None) [tick] sampleWorld) = Returned a1)
      by now rewrite H1.
    vm_compute in H. injection H as <-. reflexivity. }
  destruct s2 as [a2| |];
    try (rewrite Hw2 in H2; vm_compute in H2; discriminate).
  assert (Hhost : objectURLs (atResume [tick] w2) = objectURLs w2) by reflexivity.
  destruct (successive_reports_coexist 0 1 None (Some "en") [tick] [tick]
              sampleWorld w2 w3 a1 a2 H1 H2 Hhost) as (Hu2 & Hb1 & Hb2).
  exists a1, a2, w2, w3.
  split; [reflexivity |]. split; [exact H2 |]. split; [exact Hhost |].
  split; [exact Hu1 |]. rewrite Hu1 in Hu2, Hb1. rewrite Hu2 in Hb2.
  split; [exact Hu2 |]. split; [exact Hb1 | exact Hb2].
Defined.
